(** * uc3m_money: transfer requests, deposits and balances

    A shallow embedding of the Python package [uc3m_money] in two versions:
    - [src/main/python/uc3m_money] (the current version: [TransferRequest]
      validates and stores itself, [AccountManager] delegates to it);
    - [G8X.2025.T00.GE4-main/src/main/python/uc3m_money] (the older
      [AccountManager] that does everything itself).

    Python strings are [string]s (code points below 256; the date check is
    also modelled on lists of code points, in [TransferU]), an exception is a
    value of [exn], and a method that may raise returns a [result].  The
    JSON files are explicit state, passed in and returned. *)

From Stdlib Require Import String Ascii List ZArith Bool Lia.
Import ListNotations.
Open Scope string_scope.
Open Scope Z_scope.

(* ------------------------------------------------------------------ *)
(** ** Python runtime: exceptions, results, strings *)

Module Py.

(** The exceptions the code raises or lets escape.  [AccountManagementException]
    carries its message, as in the source. *)
Inductive exn :=
| AccountManagementException (msg : string)
| AttributeError (name : string)
| KeyError (key : string)
| ValueError
| TypeError.

Inductive result (A : Type) :=
| Ok (a : A)
| Err (e : exn).
Arguments Ok {A} a.
Arguments Err {A} e.

Definition bind {A B} (m : result A) (k : A -> result B) : result B :=
  match m with Ok a => k a | Err e => Err e end.

Notation "'let*' x := m 'in' k" := (bind m (fun x => k))
  (at level 200, x name, m at level 100, k at level 200).

(** [raise AccountManagementException(msg)] *)
Definition raise {A} (msg : string) : result A :=
  Err (AccountManagementException msg).

Definition is_ok {A} (r : result A) : bool :=
  match r with Ok _ => true | Err _ => false end.

(** Python slicing [s[:n]] and [s[n:]] (for 0 <= n). *)
Fixpoint take (n : nat) (s : string) : string :=
  match n, s with
  | O, _ => EmptyString
  | _, EmptyString => EmptyString
  | S n', String c s' => String c (take n' s')
  end.

Fixpoint drop (n : nat) (s : string) : string :=
  match n, s with
  | O, _ => s
  | _, EmptyString => EmptyString
  | S n', String _ s' => drop n' s'
  end.

(** [s[i:j]] *)
Definition slice (i j : nat) (s : string) : string := take (j - i) (drop i s).

(** An ASCII decimal digit, the class [[0-9]]. *)
Definition is_digit (c : ascii) : bool :=
  (48 <=? nat_of_ascii c)%nat && (nat_of_ascii c <=? 57)%nat.

Definition digit_val (c : ascii) : Z := Z.of_nat (nat_of_ascii c) - 48.

Fixpoint all_chars (p : ascii -> bool) (s : string) : bool :=
  match s with
  | EmptyString => true
  | String c s' => p c && all_chars p s'
  end.

Fixpoint digits_value (acc : Z) (s : string) : Z :=
  match s with
  | EmptyString => acc
  | String c s' => digits_value (10 * acc + digit_val c) s'
  end.

(** [int(s)] on the strings it meets in this code: a non-empty run of
    ASCII digits is read in base 10, anything else raises [ValueError]. *)
Definition py_int (s : string) : result Z :=
  if negb (String.eqb s EmptyString) && all_chars is_digit s
  then Ok (digits_value 0 s) else Err ValueError.

(** [s.replace(c, r)] for a one-character pattern [c]: every occurrence,
    left to right, is replaced by [r]; the replaced text is not rescanned. *)
Fixpoint replace_char (c : ascii) (r : string) (s : string) : string :=
  match s with
  | EmptyString => EmptyString
  | String d s' =>
      if Ascii.eqb d c then r ++ replace_char c r s'
      else String d (replace_char c r s')
  end.

End Py.

Import Py.

(* ------------------------------------------------------------------ *)
(** ** IBAN validation ([TransferRequest.validate_iban]; the body of
    [AccountManager.validate_iban] in the G8X version is the same text) *)

Module Iban.

(** [check_regular(r"^ES[0-9]{22}", iban)]: [re.fullmatch], so the whole
    string is [E], [S] and then exactly 22 ASCII digits. *)
Definition iban_format (s : string) : bool :=
  match s with
  | String e (String s' rest) =>
      Ascii.eqb e "E" && Ascii.eqb s' "S"
      && (String.length rest =? 22)%nat && all_chars is_digit rest
  | _ => false
  end.

(** The 26 chained [replace] calls of the source, in their order. *)
Definition letters_to_digits (iban : string) : string :=
  let iban := replace_char "F" "15" (replace_char "E" "14" (replace_char "D" "13"
               (replace_char "C" "12" (replace_char "B" "11" (replace_char "A" "10" iban))))) in
  let iban := replace_char "L" "21" (replace_char "K" "20" (replace_char "J" "19"
               (replace_char "I" "18" (replace_char "H" "17" (replace_char "G" "16" iban))))) in
  let iban := replace_char "R" "27" (replace_char "Q" "26" (replace_char "P" "25"
               (replace_char "O" "24" (replace_char "N" "23" (replace_char "M" "22" iban))))) in
  let iban := replace_char "X" "33" (replace_char "W" "32" (replace_char "V" "31"
               (replace_char "U" "30" (replace_char "T" "29" (replace_char "S" "28" iban))))) in
  replace_char "Z" "35" (replace_char "Y" "34" iban).

Definition validate_iban (iban : string) : result string :=
  if negb (iban_format iban) then raise "Invalid IBAN format" else
  let original_code := slice 2 4 iban in
  let iban := take 2 iban ++ "00" ++ drop 4 iban in
  let iban := drop 4 iban ++ take 4 iban in
  let iban := letters_to_digits iban in
  let* int_iban := py_int iban in
  let md := int_iban mod 97 in
  let control_digit := 98 - md in
  let* code := py_int original_code in
  if negb (code =? control_digit) then raise "Invalid IBAN control digit"
  else Ok iban.

(** The transform as the claim describes it: offsets 2-3 set to [00], the
    first four characters moved to the end, then [E] read as [14] and [S]
    as [28], in one pass. *)
Fixpoint subst_ES (s : string) : string :=
  match s with
  | EmptyString => EmptyString
  | String c s' =>
      if Ascii.eqb c "E" then "14" ++ subst_ES s'
      else if Ascii.eqb c "S" then "28" ++ subst_ES s'
      else String c (subst_ES s')
  end.

Definition claimed_transform (iban : string) : string :=
  let z := take 2 iban ++ "00" ++ drop 4 iban in
  subst_ES (drop 4 z ++ take 4 z).

Definition claimed_validate (iban : string) : result string :=
  if negb (iban_format iban) then raise "Invalid IBAN format"
  else
    let n := digits_value 0 (claimed_transform iban) in
    if digits_value 0 (slice 2 4 iban) =? 98 - n mod 97
    then Ok (claimed_transform iban)
    else raise "Invalid IBAN control digit".

End Iban.

(* ------------------------------------------------------------------ *)
(** ** Python floats *)

Module PyFloat.

(** A Python [float].  A finite double is stood for by its shortest decimal
    [m * 10^e], the digits [repr] prints (every double has one and it
    determines the double); [nan] and the infinities are their own cases.
    Binary rounding of arithmetic is not modelled: [add] is exact. *)
Inductive pyfloat :=
| PFin (m : Z) (e : Z)
| PNaN
| PInf
| PNegInf.

(** Compare [m * 10^e] with the integer [c]. *)
Definition fin_cmp (m e c : Z) : comparison :=
  if 0 <=? e then Z.compare (m * 10 ^ e) c else Z.compare m (c * 10 ^ (- e)).

(** [x < c] and [x > c] for an integer constant [c]; any comparison with
    [nan] is [False]. *)
Definition lt_int (x : pyfloat) (c : Z) : bool :=
  match x with
  | PFin m e => match fin_cmp m e c with Lt => true | _ => false end
  | PNaN | PInf => false
  | PNegInf => true
  end.

Definition gt_int (x : pyfloat) (c : Z) : bool :=
  match x with
  | PFin m e => match fin_cmp m e c with Gt => true | _ => false end
  | PNaN | PNegInf => false
  | PInf => true
  end.

(** [x == c] for an integer [c] *)
Definition eq_int (x : pyfloat) (c : Z) : bool :=
  match x with
  | PFin m e => match fin_cmp m e c with Eq => true | _ => false end
  | _ => false
  end.

(** [x == y] on floats: equal values; [nan] equals nothing, not even itself. *)
Definition eqb (x y : pyfloat) : bool :=
  match x, y with
  | PFin m1 e1, PFin m2 e2 =>
      let e := Z.min e1 e2 in
      m1 * 10 ^ (e1 - e) =? m2 * 10 ^ (e2 - e)
  | PInf, PInf | PNegInf, PNegInf => true
  | _, _ => false
  end.

(** [x + y] (exact on finite values). *)
Definition add (x y : pyfloat) : pyfloat :=
  match x, y with
  | PFin m1 e1, PFin m2 e2 =>
      let e := Z.min e1 e2 in PFin (m1 * 10 ^ (e1 - e) + m2 * 10 ^ (e2 - e)) e
  | PNaN, _ | _, PNaN | PInf, PNegInf | PNegInf, PInf => PNaN
  | PInf, _ | _, PInf => PInf
  | PNegInf, _ | _, PNegInf => PNegInf
  end.

(** Decimal digits of [n >= 0]. *)
Fixpoint digits_fuel (fuel : nat) (n : Z) (acc : string) : string :=
  match fuel with
  | O => acc
  | S f =>
      let d := String (ascii_of_nat (Z.to_nat (n mod 10 + 48))) acc in
      if n <? 10 then d else digits_fuel f (n / 10) d
  end.

Definition z_digits (n : Z) : string := digits_fuel 400 n EmptyString.

Fixpoint zeros (n : nat) : string :=
  match n with O => EmptyString | S k => String "0" (zeros k) end.

(** Strip trailing zeros of [m], raising [e]. *)
Fixpoint normalize_fuel (fuel : nat) (m e : Z) : Z * Z :=
  match fuel with
  | O => (m, e)
  | S f => if (m =? 0) || negb (m mod 10 =? 0) then (m, e)
           else normalize_fuel f (m / 10) (e + 1)
  end.

Definition normalize (m e : Z) : Z * Z := normalize_fuel 400 m e.

(** [repr(x)] (= [str(x)]): with the digits [d1...dn] and the decimal point
    position [decpt] (value [0.d1...dn * 10^decpt]), exponent notation when
    [decpt <= -4] or [decpt > 16], fixed notation otherwise, always with
    a [.] except in exponent notation on one digit. *)
Definition repr_fin (m e : Z) : string :=
  let sign := if m <? 0 then "-" else EmptyString in
  let '(m', e') := normalize (Z.abs m) e in
  if m' =? 0 then "0.0" else
  let ds := z_digits m' in
  let n := Z.of_nat (String.length ds) in
  let decpt := n + e' in
  if (decpt <=? -4) || (16 <? decpt) then
    let x := decpt - 1 in
    sign ++ take 1 ds
      ++ (if 1 <? n then "." ++ drop 1 ds else EmptyString)
      ++ "e" ++ (if x <? 0 then "-" else "+")
      ++ (if Z.abs x <? 10 then "0" else EmptyString) ++ z_digits (Z.abs x)
  else if decpt <=? 0 then
    sign ++ "0." ++ zeros (Z.to_nat (- decpt)) ++ ds
  else if decpt <? n then
    sign ++ take (Z.to_nat decpt) ds ++ "." ++ drop (Z.to_nat decpt) ds
  else sign ++ ds ++ zeros (Z.to_nat (decpt - n)) ++ ".0".

Definition repr (x : pyfloat) : string :=
  match x with
  | PFin m e => repr_fin m e
  | PNaN => "nan"
  | PInf => "inf"
  | PNegInf => "-inf"
  end.

(** [float(s)] on the decimal strings [-?d+(.d+)?] of the transaction log,
    read exactly; other text raises [ValueError].  Python's [float()] also
    takes spaces, [+], exponents, [_], [inf] and [nan], and rounds to the
    nearest double; the two agree on short decimals such as [100.0]. *)
Fixpoint parse_digits (s : string) (m : Z) (n : Z) : option (Z * Z * string) :=
  match s with
  | String c s' => if is_digit c then parse_digits s' (10 * m + digit_val c) (n + 1)
                   else Some (m, n, s)
  | EmptyString => Some (m, n, s)
  end.

Definition of_string (s : string) : result pyfloat :=
  let '(neg, s) := match s with
                   | String "-" s' => (true, s')
                   | _ => (false, s)
                   end in
  match parse_digits s 0 0 with
  | Some (m, n, EmptyString) =>
      if 0 <? n then Ok (PFin (if neg then - m else m) 0) else Err ValueError
  | Some (m, n, String "." fr) =>
      match parse_digits fr m 0 with
      | Some (m', k, EmptyString) =>
          if (0 <? n) && (0 <? k) then Ok (PFin (if neg then - m' else m') (- k))
          else Err ValueError
      | _ => Err ValueError
      end
  | _ => Err ValueError
  end.

End PyFloat.

(* ------------------------------------------------------------------ *)
(** ** [json.dumps] with the default options *)

Module Json.
Import PyFloat.

Inductive value :=
| JStr (s : string)
| JFloat (f : pyfloat).

Definition hex_digit (n : nat) : ascii :=
  if (n <? 10)%nat then ascii_of_nat (n + 48) else ascii_of_nat (n + 87).

(** The double quote character. *)
Definition dq : ascii := ascii_of_nat 34.

(** [ensure_ascii=True]: everything outside [' '..'~'] is escaped. *)
Definition escape_char (c : ascii) : string :=
  let n := nat_of_ascii c in
  if Ascii.eqb c dq then String "\" (String dq EmptyString)
  else if Ascii.eqb c "\" then "\\"
  else if (n =? 10)%nat then "\n"
  else if (n =? 13)%nat then "\r"
  else if (n =? 9)%nat then "\t"
  else if (n =? 8)%nat then "\b"
  else if (n =? 12)%nat then "\f"
  else if (32 <=? n)%nat && (n <=? 126)%nat then String c EmptyString
  else "\u00" ++ String (hex_digit (n / 16)) (String (hex_digit (n mod 16)) EmptyString).

Fixpoint escape (s : string) : string :=
  match s with
  | EmptyString => EmptyString
  | String c s' => escape_char c ++ escape s'
  end.

Definition dumps_string (s : string) : string :=
  String dq (escape s ++ String dq EmptyString).

(** [float.__repr__], with [NaN], [Infinity], [-Infinity] for the specials. *)
Definition dumps_float (f : pyfloat) : string :=
  match f with
  | PNaN => "NaN"
  | PInf => "Infinity"
  | PNegInf => "-Infinity"
  | PFin _ _ => repr f
  end.

Definition dumps_value (v : value) : string :=
  match v with
  | JStr s => dumps_string s
  | JFloat f => dumps_float f
  end.

(** [json.dumps] of a flat dict, in its insertion order, with the default
    separators [", "] and [": "]. *)
Fixpoint dumps_items (kvs : list (string * value)) : string :=
  match kvs with
  | [] => EmptyString
  | [(k, v)] => dumps_string k ++ ": " ++ dumps_value v
  | (k, v) :: kvs' => dumps_string k ++ ": " ++ dumps_value v ++ ", " ++ dumps_items kvs'
  end.

Definition dumps_dict (kvs : list (string * value)) : string :=
  "{" ++ dumps_items kvs ++ "}".

End Json.

(* ------------------------------------------------------------------ *)
(** ** [hashlib.md5(data).hexdigest()] (RFC 1321) *)

Module MD5.

Definition mask32 : Z := 2 ^ 32 - 1.
Definition add32 (a b : Z) : Z := (a + b) mod 2 ^ 32.
Definition not32 (a : Z) : Z := Z.lxor a mask32.
Definition rotl32 (x : Z) (s : Z) : Z :=
  Z.land (Z.lor (Z.shiftl x s) (Z.shiftr x (32 - s))) mask32.

(** [K[i] = floor(|sin(i + 1)| * 2^32)] *)
Definition K : list Z :=
  [3614090360; 3905402710; 606105819; 3250441966;
   4118548399; 1200080426; 2821735955; 4249261313;
   1770035416; 2336552879; 4294925233; 2304563134;
   1804603682; 4254626195; 2792965006; 1236535329;
   4129170786; 3225465664; 643717713; 3921069994;
   3593408605; 38016083; 3634488961; 3889429448;
   568446438; 3275163606; 4107603335; 1163531501;
   2850285829; 4243563512; 1735328473; 2368359562;
   4294588738; 2272392833; 1839030562; 4259657740;
   2763975236; 1272893353; 4139469664; 3200236656;
   681279174; 3936430074; 3572445317; 76029189;
   3654602809; 3873151461; 530742520; 3299628645;
   4096336452; 1126891415; 2878612391; 4237533241;
   1700485571; 2399980690; 4293915773; 2240044497;
   1873313359; 4264355552; 2734768916; 1309151649;
   4149444226; 3174756917; 718787259; 3951481745].

Definition shifts : list Z :=
  [7; 12; 17; 22; 7; 12; 17; 22; 7; 12; 17; 22; 7; 12; 17; 22;
   5; 9; 14; 20; 5; 9; 14; 20; 5; 9; 14; 20; 5; 9; 14; 20;
   4; 11; 16; 23; 4; 11; 16; 23; 4; 11; 16; 23; 4; 11; 16; 23;
   6; 10; 15; 21; 6; 10; 15; 21; 6; 10; 15; 21; 6; 10; 15; 21].

(** Little-endian 32-bit word from four bytes. *)
Definition word_le (b0 b1 b2 b3 : Z) : Z :=
  b0 + 256 * b1 + 65536 * b2 + 16777216 * b3.

Fixpoint words_le (bs : list Z) : list Z :=
  match bs with
  | b0 :: b1 :: b2 :: b3 :: bs' => word_le b0 b1 b2 b3 :: words_le bs'
  | _ => []
  end.

Definition bytes_le (n : Z) (w : Z) : list Z :=
  map (fun i => Z.land (Z.shiftr w (8 * Z.of_nat i)) 255) (seq 0 (Z.to_nat n)).

(** Message padding: [0x80], zeros up to 56 mod 64, the bit length on 8 bytes. *)
Definition pad (msg : list Z) : list Z :=
  let l := Z.of_nat (length msg) in
  let k := (55 - l) mod 64 in
  msg ++ [128] ++ repeat 0 (Z.to_nat k) ++ bytes_le 8 ((8 * l) mod 2 ^ 64).

Definition round_f (i : nat) (b c d : Z) : Z * nat :=
  if (i <? 16)%nat then (Z.lor (Z.land b c) (Z.land (not32 b) d), i)
  else if (i <? 32)%nat then (Z.lor (Z.land b d) (Z.land c (not32 d)), ((5 * i + 1) mod 16)%nat)
  else if (i <? 48)%nat then (Z.lxor (Z.lxor b c) d, ((3 * i + 5) mod 16)%nat)
  else (Z.lxor c (Z.lor b (not32 d)), ((7 * i) mod 16)%nat).

(** The 64 steps on one block [m] (16 words), from state [(a, b, c, d)]. *)
Definition step (m : list Z) (st : Z * Z * Z * Z) (i : nat) : Z * Z * Z * Z :=
  let '(a, b, c, d) := st in
  let '(f, g) := round_f i b c d in
  let f := add32 (add32 (add32 f a) (nth i K 0)) (nth g m 0) in
  (d, add32 b (rotl32 f (nth i shifts 0)), b, c).

Definition block (st : Z * Z * Z * Z) (m : list Z) : Z * Z * Z * Z :=
  let '(a, b, c, d) := st in
  let '(a', b', c', d') := fold_left (step m) (seq 0 64) st in
  (add32 a a', add32 b b', add32 c c', add32 d d').

Fixpoint blocks (fuel : nat) (bs : list Z) : list (list Z) :=
  match fuel with
  | O => []
  | S f => match bs with
           | [] => []
           | _ => words_le (firstn 64 bs) :: blocks f (skipn 64 bs)
           end
  end.

Definition init : Z * Z * Z * Z := (1732584193, 4023233417, 2562383102, 271733878).

Definition digest (msg : list Z) : list Z :=
  let p := pad msg in
  let '(a, b, c, d) := fold_left block (blocks (length p) p) init in
  bytes_le 4 a ++ bytes_le 4 b ++ bytes_le 4 c ++ bytes_le 4 d.

Definition hex_byte (b : Z) : string :=
  String (Json.hex_digit (Z.to_nat (b / 16)))
    (String (Json.hex_digit (Z.to_nat (b mod 16))) EmptyString).

Definition hexdigest (msg : list Z) : string :=
  fold_right (fun b acc => hex_byte b ++ acc) EmptyString (digest msg).

(** [s.encode()]: UTF-8.  Every string this code hashes is the output of
    [json.dumps], which is ASCII, so one byte per character. *)
Fixpoint encode (s : string) : list Z :=
  match s with
  | EmptyString => []
  | String c s' => Z.of_nat (nat_of_ascii c) :: encode s'
  end.

Definition md5_hex (s : string) : string := hexdigest (encode s).

End MD5.

(* ------------------------------------------------------------------ *)
(** ** A JSON array file *)

Module Store.

(** The state of a store file: absent (its directory exists), unreachable
    (its directory does not exist: both [open] calls raise
    [FileNotFoundError]), holding text that is not JSON, or holding a JSON
    array of records. *)
Inductive file (A : Type) :=
| NoFile
| NoDir
| Corrupt
| Records (l : list A).
Arguments NoFile {A}.
Arguments NoDir {A}.
Arguments Corrupt {A}.
Arguments Records {A} l.

(** [json.load] of a store that is appended to: a missing file is [[]]. *)
Definition load_or_empty {A} (f : file A) : result (list A) :=
  match f with
  | NoFile | NoDir => Ok []
  | Corrupt => raise "JSON Decode Error - Wrong JSON Format"
  | Records l => Ok l
  end.

(** [open(path, "w")] then [json.dump(l, file, indent=2)]. *)
Definition dump {A} (f : file A) (l : list A) : result unit * file A :=
  match f with
  | NoDir => (raise "Wrong file  or file path", f)
  | _ => (Ok tt, Records l)
  end.

End Store.

(* ------------------------------------------------------------------ *)
(** ** [TransferRequest] (src version) *)

Module Transfer.
Import PyFloat Json Store.

(** Calendar dates [(year, month, day)]. *)
Definition date := (Z * Z * Z)%type.

Definition date_lt (a b : date) : bool :=
  let '(y1, m1, d1) := a in let '(y2, m2, d2) := b in
  (y1 <? y2) || ((y1 =? y2) && ((m1 <? m2) || ((m1 =? m2) && (d1 <? d2)))).

Definition is_leap (y : Z) : bool :=
  ((y mod 4 =? 0) && negb (y mod 100 =? 0)) || (y mod 400 =? 0).

Definition days_in_month (y m : Z) : Z :=
  if m =? 2 then (if is_leap y then 29 else 28)
  else if (m =? 4) || (m =? 6) || (m =? 9) || (m =? 11) then 30 else 31.

(** The object's attributes, in the order [__init__] assigns them (this is
    the key order of [self.__dict__]). *)
Record transfer_request := mkTR {
  transfer_store_file : string;
  from_iban : string;
  to_iban : string;
  transfer_type : string;
  concept : string;
  transfer_date : string;
  transfer_amount : pyfloat;
  time_stamp : pyfloat }.

(** [__str__]: ["Transfer:" + json.dumps(self.__dict__)], private names
    mangled with the class name. *)
Definition str_tr (r : transfer_request) : string :=
  "Transfer:" ++ dumps_dict
    [("_TransferRequest__transfer_store_file", JStr (transfer_store_file r));
     ("_TransferRequest__from_iban", JStr (from_iban r));
     ("_TransferRequest__to_iban", JStr (to_iban r));
     ("_TransferRequest__transfer_type", JStr (transfer_type r));
     ("_TransferRequest__concept", JStr (concept r));
     ("_TransferRequest__transfer_date", JStr (transfer_date r));
     ("_TransferRequest__transfer_amount", JFloat (transfer_amount r));
     ("_TransferRequest__time_stamp", JFloat (time_stamp r))].

(** [transfer_code]: [hashlib.md5(str(self).encode()).hexdigest()] *)
Definition transfer_code (r : transfer_request) : string := MD5.md5_hex (str_tr r).

(** A record of the transfers store, as [to_json] builds it (a JSON
    round trip gives back the same strings and floats). *)
Record transfer_record := mkRec {
  rec_from_iban : string;
  rec_to_iban : string;
  rec_transfer_type : string;
  rec_transfer_amount : pyfloat;
  rec_transfer_concept : string;
  rec_transfer_date : string;
  rec_time_stamp : pyfloat;
  rec_transfer_code : string }.

Definition to_json (r : transfer_request) : transfer_record :=
  mkRec (from_iban r) (to_iban r) (transfer_type r) (transfer_amount r)
        (concept r) (transfer_date r) (time_stamp r) (transfer_code r).

Definition validate_iban : string -> result string := Iban.validate_iban.

(** [\s] on code points below 256. *)
Definition is_space (c : ascii) : bool :=
  let n := nat_of_ascii c in
  (((9 <=? n) && (n <=? 13)) || ((28 <=? n) && (n <=? 32))
  || (n =? 133) || (n =? 160))%nat.

Definition is_alpha (c : ascii) : bool :=
  let n := nat_of_ascii c in (((65 <=? n) && (n <=? 90)) || ((97 <=? n) && (n <=? 122)))%nat.

(** [[a-zA-Z]+(\s[a-zA-Z]+)+] as an automaton: state 0 expects the first
    letter, 1 is inside a word, 2 is after a separator. *)
Fixpoint words_shape (st : nat) (sep : bool) (s : string) : bool :=
  match s with
  | EmptyString => (st =? 1) && sep
  | String c s' =>
      if is_alpha c then words_shape 1 sep s'
      else if is_space c && (st =? 1) then words_shape 2 true s'
      else false
  end%nat.

Fixpoint has_char (c : ascii) (s : string) : bool :=
  match s with
  | EmptyString => false
  | String d s' => Ascii.eqb c d || has_char c s'
  end.

(** [check_regular(r"^(?=^.{10,30}$)([a-zA-Z]+(\s[a-zA-Z]+)+)$", concept)]:
    the lookahead asks for 10 to 30 characters other than a newline. *)
Definition concept_format (s : string) : bool :=
  (10 <=? String.length s)%nat && (String.length s <=? 30)%nat
  && negb (has_char (ascii_of_nat 10) s) && words_shape 0 false s.

Definition validate_concept (c : string) : result unit :=
  if negb (concept_format c) then raise "Invalid concept format" else Ok tt.

(** [check_regular(r"(ORDINARY|INMEDIATE|URGENT)", t)] with [re.fullmatch]. *)
Definition transfer_type_format (t : string) : bool :=
  String.eqb t "ORDINARY" || String.eqb t "INMEDIATE" || String.eqb t "URGENT".

Definition validate_transfer_type (t : string) : result unit :=
  if negb (transfer_type_format t) then raise "Invalid transfer type" else Ok tt.

Definition in_range (lo hi : nat) (c : ascii) : bool :=
  (lo <=? nat_of_ascii c)%nat && (nat_of_ascii c <=? hi)%nat.

(** [r"^(([0-2]\d|3[0-1])\/(0\d|1[0-2])\/\d\d\d\d)$"] with [re.fullmatch];
    the only decimal digits of Latin-1 are [0-9] ([TransferU] has the rest). *)
Definition date_format (s : string) : bool :=
  match s with
  | String d1 (String d2 (String sl1 (String m1 (String m2 (String sl2
      (String y1 (String y2 (String y3 (String y4 EmptyString))))))))) =>
      ((in_range 48 50 d1 && is_digit d2) || (Ascii.eqb d1 "3" && in_range 48 49 d2))
      && Ascii.eqb sl1 "/"
      && ((Ascii.eqb m1 "0" && is_digit m2) || (Ascii.eqb m1 "1" && in_range 48 50 m2))
      && Ascii.eqb sl2 "/"
      && is_digit y1 && is_digit y2 && is_digit y3 && is_digit y4
  | _ => false
  end.

(** [datetime.strptime(s, "%d/%m/%Y").date()] on a string of the shape
    [DD/MM/YYYY]: [%d] reads 01..31, [%m] 01..12, and the date must exist
    (year from 1, day within the month). *)
Definition strptime_dmy (s : string) : result date :=
  let d := digits_value 0 (slice 0 2 s) in
  let m := digits_value 0 (slice 3 5 s) in
  let y := digits_value 0 (slice 6 10 s) in
  if (1 <=? d) && (d <=? 31) && (1 <=? m) && (m <=? 12) && (1 <=? y)
     && (d <=? days_in_month y m)
  then Ok (y, m, d) else Err ValueError.

(** [today] is [datetime.now(timezone.utc).date()]. *)
Definition validate_transfer_date (today : date) (transfer_date : string) : result string :=
  if negb (date_format transfer_date) then raise "Invalid date format" else
  match strptime_dmy transfer_date with
  | Err _ => raise "Invalid date format"
  | Ok my_date =>
      if date_lt my_date today then raise "Transfer date must be today or later."
      else let '(y, _, _) := my_date in
        if (y <? 2025) || (2050 <? y) then raise "Invalid date format"
        else Ok transfer_date
  end.

(** [n_str.split('.')[1]] when [n_str] contains a dot. *)
Fixpoint after_dot (s : string) : option string :=
  match s with
  | EmptyString => None
  | String c s' => if Ascii.eqb c "." then Some s' else after_dot s'
  end.

Fixpoint upto_dot (s : string) : string :=
  match s with
  | EmptyString => EmptyString
  | String c s' => if Ascii.eqb c "." then EmptyString else String c (upto_dot s')
  end.

(** [validate_amount]: [float(amount)] is the float itself. *)
Definition validate_amount (amount : pyfloat) : result unit :=
  let amount_float := amount in
  let n_str := repr amount_float in
  match after_dot n_str with
  | Some rest =>
      if (2 <? String.length (upto_dot rest))%nat then raise "Invalid transfer amount"
      else if lt_int amount_float 10 || gt_int amount_float 10000
      then raise "Invalid transfer amount" else Ok tt
  | None =>
      if lt_int amount_float 10 || gt_int amount_float 10000
      then raise "Invalid transfer amount" else Ok tt
  end.

(** [is_duplicate_transfer]: the six field comparisons, each with [==]. *)
Definition same_fields (t_i : transfer_record) (r : transfer_request) : bool :=
  String.eqb (rec_from_iban t_i) (from_iban r)
  && String.eqb (rec_to_iban t_i) (to_iban r)
  && String.eqb (rec_transfer_date t_i) (transfer_date r)
  && PyFloat.eqb (rec_transfer_amount t_i) (transfer_amount r)
  && String.eqb (rec_transfer_concept t_i) (concept r)
  && String.eqb (rec_transfer_type t_i) (transfer_type r).

Definition is_duplicate_transfer (r : transfer_request) (t_i : transfer_record) : result unit :=
  if same_fields t_i r then raise "Duplicated transfer in transfer list" else Ok tt.

Fixpoint check_all (r : transfer_request) (t_l : list transfer_record) : result unit :=
  match t_l with
  | [] => Ok tt
  | t_i :: t_l' => let* _ := is_duplicate_transfer r t_i in check_all r t_l'
  end.

Definition store_transfer_request (r : transfer_request) (st : file transfer_record)
  : result unit * file transfer_record :=
  match load_or_empty st with
  | Err e => (Err e, st)
  | Ok t_l =>
      match check_all r t_l with
      | Err e => (Err e, st)
      | Ok _ => dump st (t_l ++ [to_json r])
      end
  end.

(** [TransferRequest(from_iban, transfer_type, to_iban, transfer_concept,
    transfer_date, transfer_amount, transfer_store_file)] with the clock
    reading [now_ts] (the time stamp) and [today] (the UTC date); [st] is
    the file at [transfer_store_file]. *)
Definition validations (today : date) (r : transfer_request) : result unit :=
  let* _ := validate_iban (from_iban r) in
  let* _ := validate_iban (to_iban r) in
  let* _ := validate_concept (concept r) in
  let* _ := validate_transfer_type (transfer_type r) in
  let* _ := validate_transfer_date today (transfer_date r) in
  validate_amount (transfer_amount r).

Definition new_transfer_request (from_iban transfer_type to_iban transfer_concept
    transfer_date : string) (transfer_amount : pyfloat) (transfer_store_file : string)
    (now_ts : pyfloat) (today : date) (st : file transfer_record)
  : result transfer_request * file transfer_record :=
  let r := mkTR transfer_store_file from_iban to_iban transfer_type transfer_concept
                transfer_date transfer_amount now_ts in
  match validations today r with
  | Err e => (Err e, st)
  | Ok _ =>
      match store_transfer_request r st with
      | (Err e, st') => (Err e, st')
      | (Ok _, st') => (Ok r, st')
      end
  end.

(** [AccountManager.transfer_request] (src version): builds the request on
    [TRANSFERS_STORE_FILE] and returns its [transfer_code]. *)
Definition am_transfer_request (transfers_store_file : string)
    (from_iban to_iban concept transfer_type date_s : string) (amount : pyfloat)
    (now_ts : pyfloat) (today : Transfer.date) (st : file transfer_record)
  : result string * file transfer_record :=
  match new_transfer_request from_iban transfer_type to_iban concept date_s amount
          transfers_store_file now_ts today st with
  | (Ok r, st') => (Ok (transfer_code r), st')
  | (Err e, st') => (Err e, st')
  end.

End Transfer.

(* ------------------------------------------------------------------ *)
(** ** [TransferRequest.validate_transfer_date] on code points *)

Module TransferU.
Import Py Transfer.

(** [validate_transfer_date] over the full range of Python's [str]: the
    [\d] of its regex and of [strptime]'s [%d] and [%Y], and [int()], take
    every Unicode decimal digit, which the Latin-1 [string]s of [Transfer]
    cannot hold. *)

(** A Python [str] as the sequence of its code points. *)
Definition ustring := list Z.

(** The code point of a character of this file's [string]s (Latin-1) and
    the code points of such a string. *)
Definition code (c : ascii) : Z := Z.of_nat (nat_of_ascii c).

Definition codes (s : string) : ustring := map code (list_ascii_of_string s).

(** The code points of value 0 of the 66 runs of ten decimal digits
    (general category Nd) of Unicode 14.0, the database of Python 3.11. *)
Definition decimal_zeros : list Z :=
  [48; 1632; 1776; 1984; 2406; 2534; 2662; 2790; 2918; 3046; 3174; 3302; 3430;
   3558; 3664; 3792; 3872; 4160; 4240; 6112; 6160; 6470; 6608; 6784; 6800; 6992;
   7088; 7232; 7248; 42528; 43216; 43264; 43472; 43504; 43600; 44016; 65296;
   66720; 68912; 69734; 69872; 69942; 70096; 70384; 70736; 70864; 71248; 71360;
   71472; 71904; 72016; 72784; 73040; 73120; 92768; 92864; 93008; 120782;
   120792; 120802; 120812; 120822; 123200; 123632; 125264; 130032].

Fixpoint decimal_in (zs : list Z) (c : Z) : option Z :=
  match zs with
  | [] => None
  | z :: zs' => if (z <=? c) && (c <? z + 10) then Some (c - z) else decimal_in zs' c
  end.

(** [unicodedata.decimal(c, None)]. *)
Definition decimal (c : Z) : option Z := decimal_in decimal_zeros c.

(** [\d] of a [str] pattern. *)
Definition is_udigit (c : Z) : bool :=
  match decimal c with Some _ => true | None => false end.

Definition in_range (lo hi c : Z) : bool := (lo <=? c) && (c <=? hi).

(** [check_regular(r"^(([0-2]\d|3[0-1])\/(0\d|1[0-2])\/\d\d\d\d)$", s)]
    ([re.fullmatch]); [/] is code point 47. *)
Definition date_format (s : ustring) : bool :=
  match s with
  | [d1; d2; sl1; m1; m2; sl2; y1; y2; y3; y4] =>
      ((in_range 48 50 d1 && is_udigit d2) || ((d1 =? 51) && in_range 48 49 d2))
      && (sl1 =? 47)
      && (((m1 =? 48) && is_udigit m2) || ((m1 =? 49) && in_range 48 50 m2))
      && (sl2 =? 47)
      && is_udigit y1 && is_udigit y2 && is_udigit y3 && is_udigit y4
  | _ => false
  end.

(** Regex pieces as lists of successes (matched text, rest), in the order
    the backtracking engine tries them. *)
Definition one (p : Z -> bool) (s : ustring) : list (ustring * ustring) :=
  match s with
  | c :: r => if p c then [([c], r)] else []
  | [] => []
  end.

Definition two (p q : Z -> bool) (s : ustring) : list (ustring * ustring) :=
  match s with
  | c1 :: c2 :: r => if p c1 && q c2 then [([c1; c2], r)] else []
  | _ => []
  end.

(** [_strptime]'s [(?P<d>3[0-1]|[1-2]\d|0[1-9]|[1-9]| [1-9])]. *)
Definition re_d (s : ustring) : list (ustring * ustring) :=
  (two (Z.eqb 51) (in_range 48 49) s ++ two (in_range 49 50) is_udigit s
   ++ two (Z.eqb 48) (in_range 49 57) s ++ one (in_range 49 57) s
   ++ two (Z.eqb 32) (in_range 49 57) s)%list.

(** [(?P<m>1[0-2]|0[1-9]|[1-9])]. *)
Definition re_m (s : ustring) : list (ustring * ustring) :=
  (two (Z.eqb 49) (in_range 48 50) s ++ two (Z.eqb 48) (in_range 49 57) s
   ++ one (in_range 49 57) s)%list.

(** [(?P<Y>\d\d\d\d)]. *)
Definition re_Y (s : ustring) : list (ustring * ustring) :=
  match s with
  | a :: b :: c :: d :: r =>
      if is_udigit a && is_udigit b && is_udigit c && is_udigit d
      then [([a; b; c; d], r)] else []
  | _ => []
  end.

(** The matches of the [%d/%m/%Y] regex at the start of [s] (groups [d],
    [m], [Y] and the unmatched rest), in the engine's order; [IGNORECASE]
    changes nothing for digits, spaces and [/]. *)
Definition dmy_matches (s : ustring) : list (ustring * ustring * ustring * ustring) :=
  flat_map (fun '(dt, r1) =>
    flat_map (fun '(_, r2) =>
      flat_map (fun '(mt, r3) =>
        flat_map (fun '(_, r4) =>
          map (fun '(yt, r5) => (dt, mt, yt, r5)) (re_Y r4))
        (one (Z.eqb 47) r3))
      (re_m r2))
    (one (Z.eqb 47) r1))
  (re_d s).

(** [int(g)] of a matched group: its decimal digits in base 10 (a leading
    space is skipped). *)
Definition int_of (t : ustring) : Z :=
  fold_left (fun acc c => match decimal c with Some v => 10 * acc + v | None => acc end) t 0.

(** [datetime.strptime(s, "%d/%m/%Y").date()]: [format_regex.match(s)],
    "unconverted data remains" unless it spans [s], then
    [datetime_date(year, month, day)]. *)
Definition strptime_dmy (s : ustring) : result date :=
  match dmy_matches s with
  | [] => Err ValueError
  | (dt, mt, yt, rest) :: _ =>
      match rest with
      | _ :: _ => Err ValueError
      | [] =>
          let y := int_of yt in let m := int_of mt in let d := int_of dt in
          if (1 <=? y) && (y <=? 9999) && (1 <=? m) && (m <=? 12) && (1 <=? d)
             && (d <=? days_in_month y m)
          then Ok (y, m, d) else Err ValueError
      end
  end.

(** The day and month alternatives of [_strptime] that take two
    characters. *)
Definition day_ok (d1 d2 : Z) : bool :=
  (Z.eqb 51 d1 && in_range 48 49 d2) || (in_range 49 50 d1 && is_udigit d2)
  || (Z.eqb 48 d1 && in_range 49 57 d2).

Definition month_ok (m1 m2 : Z) : bool :=
  (Z.eqb 49 m1 && in_range 48 50 m2) || (Z.eqb 48 m1 && in_range 49 57 m2).

(** [TransferRequest.validate_transfer_date] on code points. *)
Definition validate_transfer_date (today : date) (transfer_date : ustring) : result ustring :=
  if negb (date_format transfer_date) then raise "Invalid date format" else
  match strptime_dmy transfer_date with
  | Err _ => raise "Invalid date format"
  | Ok my_date =>
      if date_lt my_date today then raise "Transfer date must be today or later."
      else let '(y, _, _) := my_date in
        if (y <? 2025) || (2050 <? y) then raise "Invalid date format"
        else Ok transfer_date
  end.

End TransferU.

(* ------------------------------------------------------------------ *)
(** ** [AccountManager]: the parts both versions share *)

Module Account.
Import PyFloat Json Store.

(** A record of the transactions log (read only): its ["IBAN"] and
    ["amount"] strings. *)
Record transaction := mkTx { tx_iban : string; tx_amount : string }.

(** A balance snapshot [{"IBAN": ..., "time": ..., "BALANCE": ...}]. *)
Record balance_record := mkBal { bal_iban : string; bal_time : pyfloat; bal_balance : pyfloat }.

(** Modelled from the spec: [AccountDeposit] ([account_deposit.py] is not in
    the sources).  "AccountDeposit: [to_iban], [deposit_amount], plus a
    derived signature (hash-based identifier), appended to a separate
    store."  The hash is left as a parameter [sign] of the operations. *)
Record deposit_record := mkDep {
  dep_to_iban : string;
  dep_deposit_amount : pyfloat;
  dep_deposit_signature : string }.

Definition account_deposit (sign : string -> pyfloat -> string)
    (to_iban : string) (deposit_amount : pyfloat) : deposit_record :=
  mkDep to_iban deposit_amount (sign to_iban deposit_amount).

(** The four store files as the manager sees them.  The transfers store is
    handled by [Transfer]; the others are here. *)
Record state := mkState {
  deposits : file deposit_record;
  transactions : file transaction;
  balances : file balance_record }.

(** The deposit input file: absent, not JSON, or a JSON object (its keys
    and values as [json.load] leaves them). *)
Inductive input_file :=
| InNoFile
| InCorrupt
| InJson (obj : list (string * value)).

Definition open_input (f : input_file) : result (list (string * value)) :=
  match f with
  | InNoFile => raise "Error: file input not found"
  | InCorrupt => raise "JSON Decode Error - Wrong JSON Format"
  | InJson obj => Ok obj
  end.

(** [d[k]] *)
Fixpoint dict_get (k : string) (d : list (string * value)) : result value :=
  match d with
  | [] => Err (KeyError k)
  | (k', v) :: d' => if String.eqb k k' then Ok v else dict_get k d'
  end.

(** [try: deposit_iban = i_d["IBAN"]; deposit_amount = i_d["AMOUNT"]
    except KeyError: raise ...] *)
Definition get_keys (i_d : list (string * value)) : result (value * value) :=
  match dict_get "IBAN" i_d, dict_get "AMOUNT" i_d with
  | Ok a, Ok b => Ok (a, b)
  | _, _ => raise "Error - Invalid Key in JSON"
  end.

(** [re.compile(r"^EUR [0-9]{4}\.[0-9]{2}").fullmatch(s)] *)
Definition deposit_format (s : string) : bool :=
  match s with
  | String e (String u (String r (String sp (String a1 (String a2 (String a3
      (String a4 (String dot (String c1 (String c2 EmptyString)))))))))) =>
      Ascii.eqb e "E" && Ascii.eqb u "U" && Ascii.eqb r "R" && Ascii.eqb sp " "
      && is_digit a1 && is_digit a2 && is_digit a3 && is_digit a4
      && Ascii.eqb dot "." && is_digit c1 && is_digit c2
  | _ => false
  end.

(** [validate_iban] applied to a value read from JSON: a non-string makes
    [re.fullmatch] raise [TypeError]. *)
Definition validate_iban_value (v : value) : result string :=
  match v with
  | JStr s => Iban.validate_iban s
  | JFloat _ => Err TypeError
  end.

(** [read_transactions_file]: here a missing file is an error. *)
Definition read_transactions_file (f : file transaction) : result (list transaction) :=
  match f with
  | NoFile | NoDir => raise "Wrong file  or file path"
  | Corrupt => raise "JSON Decode Error - Wrong JSON Format"
  | Records l => Ok l
  end.

(** The loop of [calculate_balance]: [(iban_found, bal_s)]; [bal_s]
    starts as the integer [0], which [0 + x] turns into the float [x]. *)
Fixpoint sum_matching (iban : string) (t_l : list transaction) (found : bool)
    (bal : pyfloat) : result (bool * pyfloat) :=
  match t_l with
  | [] => Ok (found, bal)
  | t :: t_l' =>
      if String.eqb (tx_iban t) iban then
        let* a := PyFloat.of_string (tx_amount t) in
        sum_matching iban t_l' true (PyFloat.add bal a)
      else sum_matching iban t_l' found bal
  end.

(** Everything after [iban = self.validate_iban(iban)] in
    [calculate_balance] (the same text in both versions); [now_ts] is the
    clock reading. *)
Definition balance_after_validation (iban : string) (now_ts : pyfloat) (s : state)
  : result bool * state :=
  match read_transactions_file (transactions s) with
  | Err e => (Err e, s)
  | Ok t_l =>
      match sum_matching iban t_l false (PFin 0 0) with
      | Err e => (Err e, s)
      | Ok (false, _) => (raise "IBAN not found", s)
      | Ok (true, bal_s) =>
          let last_balance := mkBal iban now_ts bal_s in
          match load_or_empty (balances s) with
          | Err e => (Err e, s)
          | Ok balance_list =>
              let '(r, f) := dump (balances s) (balance_list ++ [last_balance]) in
              match r with
              | Err e => (Err e, mkState (deposits s) (transactions s) f)
              | Ok _ => (Ok true, mkState (deposits s) (transactions s) f)
              end
          end
      end
  end.

(** The end of [deposit_into_account], from [AccountDeposit(...)] on. *)
Definition store_deposit (sign : string -> pyfloat -> string) (deposit_iban : string)
    (d_a_f : pyfloat) (s : state) : result string * state :=
  let deposit_obj := account_deposit sign deposit_iban d_a_f in
  match load_or_empty (deposits s) with
  | Err e => (Err e, s)
  | Ok d_l =>
      let '(r, f) := dump (deposits s) (d_l ++ [deposit_obj]) in
      match r with
      | Err e => (Err e, mkState f (transactions s) (balances s))
      | Ok _ => (Ok (dep_deposit_signature deposit_obj), mkState f (transactions s) (balances s))
      end
  end.

End Account.

(* ------------------------------------------------------------------ *)
(** ** [AccountManager] (src version) *)

Module ManagerSrc.
Import PyFloat Json Store Account.

(** Attribute lookup on an [AccountManager] instance: the instance dict is
    empty ([__init__] does [pass]), then the class dict, then [object]'s,
    none of which defines [validate_iban]. *)
Inductive attr :=
| AValidateIban (f : value -> result string)
| AOther.

Definition class_dict : list (string * attr) :=
  [("__init__", AOther); ("transfer_request", AOther);
   ("deposit_into_account", AOther); ("read_transactions_file", AOther);
   ("calculate_balance", AOther)].

Fixpoint getattr (d : list (string * attr)) (name : string) : result attr :=
  match d with
  | [] => Err (AttributeError name)
  | (k, a) :: d' => if String.eqb k name then Ok a else getattr d' name
  end.

(** [self.validate_iban(x)]: the attribute is looked up first. *)
Definition call_validate_iban (x : value) : result string :=
  let* a := getattr class_dict "validate_iban" in
  match a with
  | AValidateIban f => f x
  | AOther => Err TypeError
  end.

Definition deposit_into_account (sign : string -> pyfloat -> string)
    (input : input_file) (s : state) : result string * state :=
  match open_input input with
  | Err e => (Err e, s)
  | Ok i_d =>
  match get_keys i_d with
  | Err e => (Err e, s)
  | Ok (deposit_iban, deposit_amount) =>
      match call_validate_iban deposit_iban with
      | Err e => (Err e, s)
      | Ok deposit_iban =>
          match deposit_amount with
          | JFloat _ => (Err TypeError, s)
          | JStr a =>
              if negb (deposit_format a) then (raise "Error - Invalid deposit amount", s)
              else match PyFloat.of_string (drop 4 a) with
                   | Err e => (Err e, s)
                   | Ok d_a_f =>
                       if eq_int d_a_f 0
                       then (raise "Error - Deposit must be greater than 0", s)
                       else store_deposit sign deposit_iban d_a_f s
                   end
          end
      end
  end
  end.

Definition calculate_balance (iban : string) (now_ts : pyfloat) (s : state)
  : result bool * state :=
  match call_validate_iban (JStr iban) with
  | Err e => (Err e, s)
  | Ok iban => balance_after_validation iban now_ts s
  end.

End ManagerSrc.

(* ------------------------------------------------------------------ *)
(** ** [AccountManager] (G8X version) *)

Module ManagerG8X.
Import PyFloat Json Store Account.

(** [AccountManager.validate_iban]: the body of [TransferRequest.validate_iban]. *)
Definition validate_iban : string -> result string := Iban.validate_iban.

(** The type check inlined in [transfer_request]:
    [check_regex(r"(ORDINARY|IMMEDIATE|URGENT)", transfer_type)] (fullmatch). *)
Definition transfer_type_format (t : string) : bool :=
  String.eqb t "ORDINARY" || String.eqb t "IMMEDIATE" || String.eqb t "URGENT".

(** [deposit_into_account]: the format test is the tuple
    [(r"^EUR [0-9]{4}\.[0-9]{2}", deposit_amount)], which is never falsy,
    so [if not is_valid_deposit_amount] never raises. *)
Definition deposit_into_account (sign : string -> pyfloat -> string)
    (input : input_file) (s : state) : result string * state :=
  match open_input input with
  | Err e => (Err e, s)
  | Ok i_d =>
  match get_keys i_d with
  | Err e => (Err e, s)
  | Ok (deposit_iban, deposit_amount) =>
      match validate_iban_value deposit_iban with
      | Err e => (Err e, s)
      | Ok deposit_iban =>
          let is_valid_deposit_amount := true in
          if negb is_valid_deposit_amount then (raise "Error - Invalid deposit amount", s)
          else match deposit_amount with
          | JFloat _ => (Err TypeError, s)
          | JStr a =>
              match PyFloat.of_string (drop 4 a) with
              | Err e => (Err e, s)
              | Ok d_a_f =>
                  if eq_int d_a_f 0
                  then (raise "Error - Deposit must be greater than 0", s)
                  else store_deposit sign deposit_iban d_a_f s
              end
          end
      end
  end
  end.

Definition calculate_balance (iban : string) (now_ts : pyfloat) (s : state)
  : result bool * state :=
  match validate_iban iban with
  | Err e => (Err e, s)
  | Ok iban => balance_after_validation iban now_ts s
  end.

(** The checks of [transfer_request] that run before it builds its
    [TransferRequest] (whose G8X class is not in the sources):
    [validate_iban] twice, [validate_concept], the inlined type check,
    [validate_transfer_date], and the inlined amount check, whose text is
    the body of [TransferRequest.validate_amount].  [validate_concept] and
    [validate_transfer_date] have the same text as in [TransferRequest]. *)
Definition transfer_request_checks (today : Transfer.date) (from_iban to_iban concept
    transfer_type date_s : string) (amount : pyfloat) : result unit :=
  let* _ := validate_iban from_iban in
  let* _ := validate_iban to_iban in
  let* _ := Transfer.validate_concept concept in
  if negb (transfer_type_format transfer_type) then raise "Invalid transfer type" else
  let* _ := Transfer.validate_transfer_date today date_s in
  Transfer.validate_amount amount.

End ManagerG8X.

(* ------------------------------------------------------------------ *)
(** ** Reference descriptions for the lifecycle claims *)

Module TransferSpec.
Import PyFloat Store Transfer.

Definition to_unit {A} (r : result A) : result unit :=
  match r with Ok _ => Ok tt | Err e => Err e end.

(** The validators in the order IBAN(from), IBAN(to), concept, type, date,
    amount. *)
Definition claimed_order (today : date) (r : transfer_request) : list (result unit) :=
  [to_unit (validate_iban (from_iban r)); to_unit (validate_iban (to_iban r));
   validate_concept (concept r); validate_transfer_type (transfer_type r);
   to_unit (validate_transfer_date today (transfer_date r));
   validate_amount (transfer_amount r)].

Fixpoint first_error (l : list (result unit)) : option exn :=
  match l with
  | [] => None
  | Err e :: _ => Some e
  | Ok _ :: l' => first_error l'
  end.

(** Python [==] on the six fields of two stored records. *)
Definition same_tuple (x y : transfer_record) : bool :=
  String.eqb (rec_from_iban x) (rec_from_iban y)
  && String.eqb (rec_to_iban x) (rec_to_iban y)
  && String.eqb (rec_transfer_date x) (rec_transfer_date y)
  && PyFloat.eqb (rec_transfer_amount x) (rec_transfer_amount y)
  && String.eqb (rec_transfer_concept x) (rec_transfer_concept y)
  && String.eqb (rec_transfer_type x) (rec_transfer_type y).

(** The six fields of a record as one value: two records with equal
    [tuple6] hold the very same field values (the same [nan] included). *)
Definition tuple6 (x : transfer_record) :=
  (rec_from_iban x, rec_to_iban x, rec_transfer_date x, rec_transfer_amount x,
   rec_transfer_concept x, rec_transfer_type x).

(** No two records of the list are [==] on the six fields. *)
Fixpoint unique_tuples (l : list transfer_record) : Prop :=
  match l with
  | [] => True
  | x :: l' => Forall (fun y => same_tuple x y = false) l' /\ unique_tuples l'
  end.

(** The stores that requests can produce from an absent file. *)
Inductive reachable : file transfer_record -> Prop :=
| reach_init : reachable NoFile
| reach_step st f ty t c d a p ts today res st' :
    reachable st -> new_transfer_request f ty t c d a p ts today st = (res, st') ->
    reachable st'.

(** A date as the claim reads it: [DD/MM/YYYY] with ASCII digits ... *)
Definition dmy_of (s : string) : option date :=
  match s with
  | String d1 (String d2 (String sl1 (String m1 (String m2 (String sl2
      (String y1 (String y2 (String y3 (String y4 EmptyString))))))))) =>
      if is_digit d1 && is_digit d2 && Ascii.eqb sl1 "/" && is_digit m1 && is_digit m2
         && Ascii.eqb sl2 "/" && is_digit y1 && is_digit y2 && is_digit y3 && is_digit y4
      then Some (digits_value 0 (String y1 (String y2 (String y3 (String y4 EmptyString)))),
                 digits_value 0 (String m1 (String m2 EmptyString)),
                 digits_value 0 (String d1 (String d2 EmptyString)))
      else None
  | _ => None
  end.

(** ... that names an existing day of the Gregorian calendar ... *)
Definition valid_date (dt : date) : bool :=
  let '(y, m, d) := dt in
  (1 <=? m) && (m <=? 12) && (1 <=? d) && (d <=? days_in_month y m) && (1 <=? y).

(** ... not before [today], with its year in [[2025, 2050]]. *)
Definition claimed_date_ok (today : date) (s : string) : bool :=
  match dmy_of s with
  | Some dt =>
      let '(y, _, _) := dt in
      valid_date dt && negb (date_lt dt today) && (2025 <=? y) && (y <=? 2050)
  | None => false
  end.

End TransferSpec.

(* ------------------------------------------------------------------ *)
(** ** Vocabulary for properties of the code *)

Module CodeSpec.
Import PyFloat Store Account.

(** The two-digit decimal string of [0 <= k <= 99]. *)
Definition two_digits (k : Z) : string :=
  String (ascii_of_nat (48 + Z.to_nat (k / 10)))
    (String (ascii_of_nat (48 + Z.to_nat (k mod 10))) EmptyString).

(** The first and the last character of a string satisfy [p]. *)
Definition first_is (p : ascii -> bool) (s : string) : bool :=
  match s with String c _ => p c | EmptyString => false end.

Fixpoint last_is (p : ascii -> bool) (s : string) : bool :=
  match s with
  | EmptyString => false
  | String c EmptyString => p c
  | String _ s' => last_is p s'
  end.

(** Some character of the string satisfies [p]. *)
Fixpoint exists_char (p : ascii -> bool) (s : string) : bool :=
  match s with
  | EmptyString => false
  | String c s' => p c || exists_char p s'
  end.

(** [[float(a) for a in l]], failing at the first string that is no float. *)
Fixpoint parse_all (l : list string) : result (list pyfloat) :=
  match l with
  | [] => Ok []
  | a :: l' => let* x := of_string a in let* xs := parse_all l' in Ok (x :: xs)
  end.

(** The amounts of the log entries whose ["IBAN"] is [iban], in log order. *)
Definition matching_amounts (iban : string) (t_l : list transaction) : list string :=
  map tx_amount (filter (fun t => String.eqb (tx_iban t) iban) t_l).

End CodeSpec.

(* ================================================================== *)
(** * Properties *)

(** ** String lemmas *)

Module StrFacts.

Lemma str_app_assoc (a b c : string) : (a ++ b) ++ c = a ++ (b ++ c).
Proof. induction a; simpl; [reflexivity|]; rewrite IHa; reflexivity. Qed.

Lemma replace_char_app c r a b :
  replace_char c r (a ++ b) = replace_char c r a ++ replace_char c r b.
Proof.
  induction a as [|d a IH]; simpl; [reflexivity|].
  destruct (Ascii.eqb d c); rewrite IH; [symmetry; apply str_app_assoc|reflexivity].
Qed.

Lemma replace_char_digits c r a :
  all_chars is_digit a = true -> is_digit c = false -> replace_char c r a = a.
Proof.
  intros Ha Hc; induction a as [|d a IH]; simpl in *; [reflexivity|].
  apply andb_prop in Ha as [Hd Ha].
  destruct (Ascii.eqb d c) eqn:E.
  - apply Ascii.eqb_eq in E; subst; congruence.
  - rewrite (IH Ha); reflexivity.
Qed.

Lemma all_chars_app p a b :
  all_chars p (a ++ b) = all_chars p a && all_chars p b.
Proof.
  induction a as [|d a IH]; simpl; [reflexivity|].
  rewrite IH, andb_assoc; reflexivity.
Qed.

Lemma all_chars_take p n s : all_chars p s = true -> all_chars p (take n s) = true.
Proof.
  revert s; induction n as [|n IH]; intros [|c s] H; simpl in *; auto.
  apply andb_prop in H as [H1 H2]; rewrite H1, (IH s H2); reflexivity.
Qed.

Lemma all_chars_drop p n s : all_chars p s = true -> all_chars p (drop n s) = true.
Proof.
  revert s; induction n as [|n IH]; intros [|c s] H; simpl in *; auto.
  apply andb_prop in H as [_ H2]; auto.
Qed.

Lemma length_take n s : (n <= String.length s)%nat -> String.length (take n s) = n.
Proof.
  revert s; induction n as [|n IH]; intros [|c s] H; simpl in *; try lia.
  rewrite IH; lia.
Qed.

Lemma take_drop n s : take n s ++ drop n s = s.
Proof.
  revert s; induction n as [|n IH]; intros [|c s]; simpl; auto.
  rewrite IH; reflexivity.
Qed.

Lemma drop_app_length a b : drop (String.length a) (a ++ b) = b.
Proof. induction a; simpl; auto. Qed.

Lemma take_app_length a b : take (String.length a) (a ++ b) = a.
Proof. induction a; simpl; auto; rewrite IHa; reflexivity. Qed.

Lemma py_int_digits s :
  s <> EmptyString -> all_chars is_digit s = true -> py_int s = Ok (digits_value 0 s).
Proof.
  intros Hne Hd; unfold py_int.
  destruct (String.eqb s EmptyString) eqn:E.
  - apply String.eqb_eq in E; contradiction.
  - rewrite Hd; reflexivity.
Qed.

End StrFacts.

Module IbanFacts.
Import StrFacts Iban.

Lemma letters_to_digits_app a b :
  letters_to_digits (a ++ b) = letters_to_digits a ++ letters_to_digits b.
Proof. unfold letters_to_digits; repeat rewrite replace_char_app; reflexivity. Qed.

Lemma letters_to_digits_digits a :
  all_chars is_digit a = true -> letters_to_digits a = a.
Proof.
  intro H; unfold letters_to_digits;
    repeat (rewrite (replace_char_digits _ _ a H); [|reflexivity]); reflexivity.
Qed.

Lemma subst_ES_app a b : subst_ES (a ++ b) = subst_ES a ++ subst_ES b.
Proof.
  induction a as [|d a IH]; simpl; [reflexivity|].
  destruct (Ascii.eqb d "E"); [|destruct (Ascii.eqb d "S")];
    rewrite IH; try (symmetry; apply str_app_assoc); reflexivity.
Qed.

Lemma subst_ES_digits a : all_chars is_digit a = true -> subst_ES a = a.
Proof.
  induction a as [|d a IH]; intro H; simpl in *; [reflexivity|].
  apply andb_prop in H as [Hd Ha].
  destruct (Ascii.eqb d "E") eqn:E1;
    [apply Ascii.eqb_eq in E1; subst; discriminate|].
  destruct (Ascii.eqb d "S") eqn:E2;
    [apply Ascii.eqb_eq in E2; subst; discriminate|].
  rewrite (IH Ha); reflexivity.
Qed.

(** On a well-formed IBAN [ES cc bban], the rotated string is [bban ES00]. *)
Lemma rotate_shape rest :
  (String.length rest = 22)%nat ->
  let iban := String "E" (String "S" rest) in
  let z := take 2 iban ++ "00" ++ drop 4 iban in
  drop 4 z ++ take 4 z = drop 2 rest ++ "ES00".
Proof.
  intros Hl; simpl.
  destruct rest as [|c1 [|c2 rest]]; simpl in Hl; try lia; reflexivity.
Qed.

Lemma validate_iban_spec s : validate_iban s = claimed_validate s.
Proof.
  unfold validate_iban, claimed_validate, claimed_transform.
  destruct (iban_format s) eqn:F; simpl negb; cbv iota; [|reflexivity].
  destruct s as [|e [|s' rest]]; try discriminate.
  unfold iban_format in F.
  apply andb_prop in F as [F Hd]; apply andb_prop in F as [F Hl];
    apply andb_prop in F as [He Hs].
  apply Ascii.eqb_eq in He, Hs; subst e s'.
  apply Nat.eqb_eq in Hl.
  rewrite (rotate_shape rest Hl).
  assert (Hb : all_chars is_digit (drop 2 rest) = true) by (apply all_chars_drop; exact Hd).
  rewrite letters_to_digits_app, letters_to_digits_digits by exact Hb.
  rewrite subst_ES_app, subst_ES_digits by exact Hb.
  change (letters_to_digits "ES00") with "142800".
  change (subst_ES "ES00") with "142800".
  rewrite py_int_digits.
  2:{ destruct (drop 2 rest); discriminate. }
  2:{ rewrite all_chars_app, Hb; reflexivity. }
  simpl bind.
  assert (Hc : slice 2 4 (String "E" (String "S" rest)) = take 2 rest) by reflexivity.
  rewrite Hc, py_int_digits.
  - simpl bind. destruct (_ =? _); reflexivity.
  - destruct rest as [|c1 rest]; simpl in Hl; [lia|discriminate].
  - apply all_chars_take; exact Hd.
Qed.

End IbanFacts.

Module TransferFacts.
Import PyFloat Store Transfer TransferSpec.

Lemma validations_order today r :
  validations today r =
  match first_error (claimed_order today r) with Some e => Err e | None => Ok tt end.
Proof.
  unfold validations, claimed_order; simpl.
  destruct (validate_iban (from_iban r)); simpl; [|reflexivity].
  destruct (validate_iban (to_iban r)); simpl; [|reflexivity].
  destruct (validate_concept (concept r)); simpl; [|reflexivity].
  destruct (validate_transfer_type (transfer_type r)); simpl; [|reflexivity].
  destruct (validate_transfer_date today (transfer_date r)); simpl; [|reflexivity].
  destruct (validate_amount (transfer_amount r)) as [[]|]; reflexivity.
Qed.

Lemma store_transfer_request_err r st e st' :
  store_transfer_request r st = (Err e, st') -> st' = st.
Proof.
  unfold store_transfer_request, dump.
  destruct (load_or_empty st) as [l|]; [|congruence].
  destruct (check_all r l); [|congruence].
  destruct st; congruence.
Qed.

Lemma new_transfer_request_ok f ty t c d a p ts today st r st' :
  new_transfer_request f ty t c d a p ts today st = (Ok r, st') ->
  r = mkTR p f t ty c d a ts.
Proof.
  unfold new_transfer_request.
  destruct (validations _ _); [|congruence].
  destruct (store_transfer_request _ _) as [[]]; congruence.
Qed.

Lemma am_transfer_request_ok p f t c ty d a ts today st code st' :
  am_transfer_request p f t c ty d a ts today st = (Ok code, st') ->
  code = transfer_code (mkTR p f t ty c d a ts).
Proof.
  unfold am_transfer_request.
  destruct (new_transfer_request _ _ _ _ _ _ _ _ _ _) as [[r|e] st0] eqn:E;
    [|congruence].
  apply new_transfer_request_ok in E; subst; congruence.
Qed.

Lemma check_all_result r l :
  check_all r l = Ok tt \/ check_all r l = raise "Duplicated transfer in transfer list".
Proof.
  induction l as [|x l IH]; simpl; [auto|].
  unfold is_duplicate_transfer; destruct (same_fields x r); simpl; auto.
Qed.

Lemma check_all_ok r l : check_all r l = Ok tt -> Forall (fun x => same_fields x r = false) l.
Proof.
  induction l as [|x l IH]; simpl; [constructor|].
  unfold is_duplicate_transfer; destruct (same_fields x r) eqn:E; simpl; [discriminate|].
  intro H; constructor; auto.
Qed.

Lemma check_all_app r l x :
  check_all r (l ++ [x]) = let* _ := check_all r l in is_duplicate_transfer r x.
Proof.
  induction l as [|y l IH]; simpl.
  - destruct (is_duplicate_transfer r x) as [[]|]; reflexivity.
  - destruct (is_duplicate_transfer r y); simpl; [exact IH|reflexivity].
Qed.

Lemma same_fields_to_json x r : same_fields x r = same_tuple x (to_json r).
Proof. reflexivity. Qed.

Lemma unique_snoc l y :
  unique_tuples l -> Forall (fun x => same_tuple x y = false) l -> unique_tuples (l ++ [y]).
Proof.
  induction l as [|x l IH]; simpl; intros U F; [split; constructor|].
  destruct U as [Fx U]; inversion F; subst.
  split; [apply Forall_app; split; auto|auto].
Qed.

Lemma new_transfer_request_err f ty t c d a p ts today st e st' :
  new_transfer_request f ty t c d a p ts today st = (Err e, st') -> st' = st.
Proof.
  unfold new_transfer_request.
  destruct (validations _ _); [|congruence].
  destruct (store_transfer_request _ st) as [[]] eqn:S; [congruence|].
  intro H; inversion H; subst; eapply store_transfer_request_err; exact S.
Qed.

(** A successful request appends its record to what the store held. *)
Lemma new_transfer_request_store f ty t c d a p ts today st r st' :
  new_transfer_request f ty t c d a p ts today st = (Ok r, st') ->
  exists l, load_or_empty st = Ok l /\ check_all r l = Ok tt
            /\ st' = Records (l ++ [to_json r]).
Proof.
  unfold new_transfer_request, store_transfer_request.
  destruct (validations _ _); [|congruence].
  destruct (load_or_empty st) as [l|] eqn:L; [|congruence].
  destruct (check_all _ l) as [[]|] eqn:C; [|congruence].
  unfold dump; destruct st; intro H; inversion H; subst; eexists; eauto.
Qed.

(** Resubmitting the same fields, with an amount that is [==] to itself,
    while the date is still valid, is rejected as a duplicate. *)
Lemma second_submission_duplicate f ty t c d a p ts1 ts2 today1 today2 st r st1 :
  new_transfer_request f ty t c d a p ts1 today1 st = (Ok r, st1) ->
  PyFloat.eqb a a = true ->
  validations today2 (mkTR p f t ty c d a ts2) = Ok tt ->
  new_transfer_request f ty t c d a p ts2 today2 st1
  = (raise "Duplicated transfer in transfer list", st1).
Proof.
  intros E Ha V.
  pose proof (new_transfer_request_ok _ _ _ _ _ _ _ _ _ _ _ _ E) as Er.
  apply new_transfer_request_store in E as (l & L & C & ->); subst r.
  unfold new_transfer_request; cbv zeta; rewrite V.
  unfold store_transfer_request; cbn [load_or_empty].
  rewrite check_all_app.
  destruct (check_all_result (mkTR p f t ty c d a ts2) l) as [H|H]; rewrite H;
    [|reflexivity].
  cbn [bind]; unfold is_duplicate_transfer.
  replace (same_fields _ _) with true; [reflexivity|].
  unfold same_fields; cbn [to_json rec_from_iban rec_to_iban rec_transfer_date
    rec_transfer_amount rec_transfer_concept rec_transfer_type from_iban to_iban
    transfer_date transfer_amount concept transfer_type].
  rewrite !String.eqb_refl, Ha; reflexivity.
Qed.

(** The stores that requests build keep no two records [==] on the six
    fields. *)
Lemma reachable_unique st : reachable st ->
  match st with Records l => unique_tuples l | _ => True end.
Proof.
  induction 1 as [|st f ty t c d a p ts today res st' R IH E]; [exact I|].
  destruct res as [r|e].
  - apply new_transfer_request_store in E as (l & L & C & ->).
    apply unique_snoc.
    + destruct st; simpl in L; inversion L; subst; simpl; auto.
    + apply check_all_ok in C; eapply Forall_impl; [|exact C].
      intros x Hx; rewrite <- same_fields_to_json; exact Hx.
  - apply new_transfer_request_err in E; subst; exact IH.
Qed.

End TransferFacts.

Module DateFacts.
Import PyFloat Store Transfer TransferSpec.

Ltac cmp_cases :=
  repeat match goal with
  | |- context [(?a <=? ?b)%nat] => destruct (Nat.leb_spec a b)
  | |- context [(?a =? ?b)%nat] => destruct (Nat.eqb_spec a b)
  | |- context [(?a <=? ?b)%Z] => destruct (Z.leb_spec a b)
  | |- context [(?a <? ?b)%Z] => destruct (Z.ltb_spec a b)
  | |- context [(?a =? ?b)%Z] => destruct (Z.eqb_spec a b)
  end; simpl; try reflexivity; try lia.

Lemma ascii_eqb_nat c k :
  Ascii.eqb c k = (nat_of_ascii c =? nat_of_ascii k)%nat.
Proof.
  destruct (Ascii.eqb_spec c k) as [->|Hne]; [symmetry; apply Nat.eqb_refl|].
  symmetry; apply Nat.eqb_neq; intro H; apply Hne.
  rewrite <- (ascii_nat_embedding c), <- (ascii_nat_embedding k), H; reflexivity.
Qed.

Lemma day_digits d1 d2 :
  (in_range 48 50 d1 && is_digit d2) || (Ascii.eqb d1 "3" && in_range 48 49 d2)
  = is_digit d1 && is_digit d2 && (10 * digit_val d1 + digit_val d2 <=? 31).
Proof.
  rewrite ascii_eqb_nat; unfold in_range, is_digit, digit_val.
  change (nat_of_ascii "3") with 51%nat.
  cmp_cases.
Qed.

Lemma month_digits m1 m2 :
  (Ascii.eqb m1 "0" && is_digit m2) || (Ascii.eqb m1 "1" && in_range 48 50 m2)
  = is_digit m1 && is_digit m2 && (10 * digit_val m1 + digit_val m2 <=? 12).
Proof.
  rewrite !ascii_eqb_nat; unfold in_range, is_digit, digit_val.
  change (nat_of_ascii "0") with 48%nat; change (nat_of_ascii "1") with 49%nat.
  cmp_cases.
Qed.

Lemma days_in_month_le y m : days_in_month y m <= 31.
Proof.
  unfold days_in_month; destruct (m =? 2); [destruct (is_leap y)|];
    [lia|lia|destruct (_ || _); lia].
Qed.

Lemma digit_bounds c : is_digit c = true -> 0 <= digit_val c <= 9.
Proof.
  unfold is_digit, digit_val; intro H; apply andb_prop in H as [H1 H2].
  apply Nat.leb_le in H1, H2; lia.
Qed.

Lemma parse_equiv s :
  (if date_format s then
     match strptime_dmy s with Ok dt => Some dt | Err _ => None end
   else None)
  = match dmy_of s with
    | Some dt => if valid_date dt then Some dt else None
    | None => None
    end.
Proof.
  destruct s as [|d1 [|d2 [|sl1 [|m1 [|m2 [|sl2 [|y1 [|y2 [|y3 [|y4 [|x s]]]]]]]]]]];
    try reflexivity.
  unfold date_format, dmy_of, strptime_dmy, valid_date, slice.
  simpl take; simpl drop; simpl digits_value.
  rewrite day_digits, month_digits.
  destruct (is_digit d1) eqn:D1; simpl andb; [|reflexivity].
  destruct (is_digit d2) eqn:D2; simpl andb; [|destruct (_ <=? 31); reflexivity].
  destruct (Ascii.eqb sl1 "/"); simpl andb; [|destruct (_ <=? 31); reflexivity].
  destruct (is_digit m1) eqn:M1; simpl andb; [|destruct (_ <=? 31); reflexivity].
  destruct (is_digit m2) eqn:M2; simpl andb; [|destruct (_ <=? 31), (_ <=? 12); reflexivity].
  destruct (Ascii.eqb sl2 "/"); simpl andb; [|destruct (_ <=? 31), (_ <=? 12); reflexivity].
  destruct (is_digit y1); simpl andb; [|destruct (_ <=? 31), (_ <=? 12); reflexivity].
  destruct (is_digit y2); simpl andb; [|destruct (_ <=? 31), (_ <=? 12); reflexivity].
  destruct (is_digit y3); simpl andb; [|destruct (_ <=? 31), (_ <=? 12); reflexivity].
  destruct (is_digit y4); simpl andb; [|destruct (_ <=? 31), (_ <=? 12); reflexivity].
  apply digit_bounds in D1, D2, M1, M2.
  match goal with |- context [days_in_month ?y ?m] =>
    pose proof (days_in_month_le y m); remember (days_in_month y m) as dim end.
  cmp_cases.
Qed.

Lemma validate_date_is_ok today s :
  is_ok (validate_transfer_date today s)
  = match (if date_format s then
             match strptime_dmy s with Ok dt => Some dt | Err _ => None end
           else None) with
    | Some dt => let '(y, _, _) := dt in
                 negb (date_lt dt today) && negb ((y <? 2025) || (2050 <? y))
    | None => false
    end.
Proof.
  unfold validate_transfer_date.
  destruct (date_format s); simpl; [|reflexivity].
  destruct (strptime_dmy s) as [[[y m] d]|]; cbn -[date_lt]; [|reflexivity].
  destruct (date_lt (y, m, d) today); simpl; [reflexivity|].
  destruct (_ || _); reflexivity.
Qed.

Lemma validate_date_spec today s :
  is_ok (validate_transfer_date today s) = claimed_date_ok today s.
Proof.
  rewrite validate_date_is_ok, parse_equiv; unfold claimed_date_ok.
  destruct (dmy_of s) as [[[y m] d]|]; [|reflexivity].
  destruct (valid_date (y, m, d)); cbn -[date_lt]; [|reflexivity].
  destruct (date_lt (y, m, d) today); simpl; [reflexivity|].
  cmp_cases.
Qed.

Lemma validate_date_ok_value today s :
  is_ok (validate_transfer_date today s) = true -> validate_transfer_date today s = Ok s.
Proof.
  unfold validate_transfer_date.
  destruct (date_format s); simpl; [|discriminate].
  destruct (strptime_dmy s) as [[[y m] d]|]; cbn -[date_lt]; [|discriminate].
  destruct (date_lt (y, m, d) today); simpl; [discriminate|].
  destruct (_ || _); simpl; [discriminate|reflexivity].
Qed.

End DateFacts.

Module UFacts.
Import Py Transfer TransferU.

Lemma flat_map_if {A B} (f : A -> list B) (b : bool) (x : A) :
  flat_map f (if b then [x] else []) = if b then f x else [].
Proof. destruct b; simpl; [apply app_nil_r|reflexivity]. Qed.

Lemma if_nil {A} (b : bool) : (if b then @nil A else []) = [].
Proof. destruct b; reflexivity. Qed.

Lemma udigit_47 : is_udigit 47 = false.
Proof. reflexivity. Qed.

Lemma first_match d1 d2 s1 m1 m2 s2 y1 y2 y3 y4 :
  date_format [d1; d2; s1; m1; m2; s2; y1; y2; y3; y4] = true ->
  hd_error (dmy_matches [d1; d2; s1; m1; m2; s2; y1; y2; y3; y4])
  = if day_ok d1 d2 && month_ok m1 m2
    then Some ([d1; d2], [m1; m2], [y1; y2; y3; y4], []) else None.
Proof.
  intro F; unfold date_format in F.
  repeat match type of F with
    | _ && _ = true => apply andb_prop in F as [F ?]
    end.
  match goal with H : (s1 =? 47) = true |- _ => apply Z.eqb_eq in H; subst s1 end.
  match goal with H : (s2 =? 47) = true |- _ => apply Z.eqb_eq in H; subst s2 end.
  assert (N2 : Z.eqb 47 d2 = false).
  { destruct (Z.eqb_spec 47 d2) as [<-|]; [|reflexivity].
    rewrite udigit_47, andb_false_r in F; change (in_range 48 49 47) with false in F;
    rewrite andb_false_r in F; discriminate F. }
  assert (N5 : Z.eqb 47 m2 = false).
  { destruct (Z.eqb_spec 47 m2) as [<-|]; [|reflexivity].
    match goal with H : (m1 =? 48) && _ || _ = true |- _ =>
      rewrite udigit_47, andb_false_r in H; change (in_range 48 50 47) with false in H;
      rewrite andb_false_r in H; discriminate H end. }
  assert (N1 : Z.eqb 32 d1 = false).
  { destruct (Z.eqb_spec 32 d1) as [<-|]; [|reflexivity].
    change (in_range 48 50 32) with false in F; change (32 =? 51) with false in F;
    discriminate F. }
  unfold dmy_matches, re_d, re_m, re_Y, two, one; cbv beta iota.
  rewrite !flat_map_app, !flat_map_if; cbv beta iota.
  rewrite N1, N2, Z.eqb_refl; cbv beta iota.
  rewrite !flat_map_app, !flat_map_if; cbv beta iota.
  rewrite N5, Z.eqb_refl; cbv beta iota.
  rewrite H2, H1, H0, H; cbn [andb map]; rewrite !if_nil, !app_nil_r.
  unfold day_ok, month_ok.
  destruct ((51 =? d1) && in_range 48 49 d2), (in_range 49 50 d1 && is_udigit d2),
    ((48 =? d1) && in_range 49 57 d2), ((49 =? m1) && in_range 48 50 m2),
    ((48 =? m1) && in_range 49 57 m2); reflexivity.
Qed.

Lemma decimal_in_cons z zs c :
  decimal_in (z :: zs) c = if (z <=? c) && (c <? z + 10) then Some (c - z) else decimal_in zs c.
Proof. reflexivity. Qed.

Lemma decimal_in_above zs c : Forall (fun z => c < z) zs -> decimal_in zs c = None.
Proof.
  induction 1 as [|z zs H _ IH]; [reflexivity|]; rewrite decimal_in_cons.
  destruct (Z.leb_spec z c); [lia|exact IH].
Qed.

Lemma decimal_latin1 n : 0 <= n < 256 ->
  decimal n = if (48 <=? n) && (n <=? 57) then Some (n - 48) else None.
Proof.
  intro B; unfold decimal, decimal_zeros; rewrite decimal_in_cons.
  replace (n <? 48 + 10) with (n <=? 57) by (destruct (Z.ltb_spec n 58), (Z.leb_spec n 57); lia).
  destruct ((48 <=? n) && (n <=? 57)); [reflexivity|].
  apply decimal_in_above; repeat constructor; lia.
Qed.

Lemma udigit_latin1 n : 0 <= n < 256 -> is_udigit n = (48 <=? n) && (n <=? 57).
Proof. intro B; unfold is_udigit; rewrite decimal_latin1 by exact B; destruct (_ && _); reflexivity. Qed.

Ltac zcases :=
  repeat match goal with
  | |- context [(?a <=? ?b)] => destruct (Z.leb_spec a b); try (exfalso; lia)
  | |- context [(?a <? ?b)] => destruct (Z.ltb_spec a b); try (exfalso; lia)
  | |- context [(?a =? ?b)] => destruct (Z.eqb_spec a b); try (exfalso; lia)
  end.

Ltac to_prop H :=
  repeat (rewrite ?andb_true_iff, ?orb_true_iff, ?Z.leb_le, ?Z.eqb_eq in H).

Lemma match_hd {A B} (l : list A) (n : B) (c : A -> B) :
  match l with [] => n | x :: _ => c x end = match hd_error l with None => n | Some x => c x end.
Proof. destruct l; reflexivity. Qed.

Lemma strptime_latin1 n1 n2 n3 n4 n5 n6 n7 n8 n9 n10 :
  0 <= n1 < 256 -> 0 <= n2 < 256 -> 0 <= n4 < 256 -> 0 <= n5 < 256 ->
  0 <= n7 < 256 -> 0 <= n8 < 256 -> 0 <= n9 < 256 -> 0 <= n10 < 256 ->
  date_format [n1; n2; n3; n4; n5; n6; n7; n8; n9; n10] = true ->
  strptime_dmy [n1; n2; n3; n4; n5; n6; n7; n8; n9; n10]
  = (let d := 10 * (10 * 0 + (n1 - 48)) + (n2 - 48) in
     let m := 10 * (10 * 0 + (n4 - 48)) + (n5 - 48) in
     let y := 10 * (10 * (10 * (10 * 0 + (n7 - 48)) + (n8 - 48)) + (n9 - 48)) + (n10 - 48) in
     if (1 <=? d) && (d <=? 31) && (1 <=? m) && (m <=? 12) && (1 <=? y)
        && (d <=? days_in_month y m)
     then Ok (y, m, d) else Err ValueError).
Proof.
  intros B1 B2 B4 B5 B7 B8 B9 B10 F.
  unfold strptime_dmy; rewrite match_hd, (first_match _ _ _ _ _ _ _ _ _ _ F).
  unfold date_format in F; rewrite !udigit_latin1 in F by assumption.
  unfold in_range in F; to_prop F.
  destruct F as [[[[[[[Fd _] Fm] _] Fy1] Fy2] Fy3] Fy4].
  set (D := 10 * (10 * 0 + (n1 - 48)) + (n2 - 48)).
  set (M := 10 * (10 * 0 + (n4 - 48)) + (n5 - 48)).
  set (Y := 10 * (10 * (10 * (10 * 0 + (n7 - 48)) + (n8 - 48)) + (n9 - 48)) + (n10 - 48)).
  assert (Dk : day_ok n1 n2 = (1 <=? D)).
  { unfold day_ok, in_range, D; rewrite udigit_latin1 by assumption.
    destruct Fd as [[? ?]|[-> ?]]; zcases; simpl; reflexivity. }
  assert (Mk : month_ok n4 n5 = (1 <=? M)).
  { unfold month_ok, in_range, M.
    destruct Fm as [[-> ?]|[-> ?]]; zcases; simpl; reflexivity. }
  assert (D31 : (D <=? 31) = true) by (apply Z.leb_le; unfold D; lia).
  assert (M12 : (M <=? 12) = true) by (apply Z.leb_le; unfold M; lia).
  assert (Y9 : (Y <=? 9999) = true) by (apply Z.leb_le; unfold Y; lia).
  assert (Dg : forall n, 48 <= n <= 57 -> (48 <=? n) && (n <=? 57) = true)
    by (intros n Hn; apply andb_true_iff; split; apply Z.leb_le; lia).
  rewrite Dk, Mk, D31, M12.
  destruct (Z.leb_spec 1 D), (Z.leb_spec 1 M); simpl andb; cbv iota;
    try reflexivity.
  unfold int_of; cbn [fold_left].
  rewrite !decimal_latin1 by lia.
  rewrite !Dg by (unfold D in *; unfold M in *; lia).
  fold D M Y.
  rewrite Y9, M12.
  destruct (Z.leb_spec 1 M), (Z.leb_spec 1 D); [|lia..].
  destruct (1 <=? Y), (D <=? days_in_month Y M); reflexivity.
Qed.

Lemma code_bound c : 0 <= code c < 256.
Proof. unfold code; pose proof (nat_ascii_bounded c); lia. Qed.

Lemma is_digit_code c : is_digit c = (48 <=? code c) && (code c <=? 57).
Proof.
  unfold is_digit, code.
  destruct (Nat.leb_spec 48 (nat_of_ascii c)), (Z.leb_spec 48 (Z.of_nat (nat_of_ascii c)));
  destruct (Nat.leb_spec (nat_of_ascii c) 57), (Z.leb_spec (Z.of_nat (nat_of_ascii c)) 57);
  simpl; lia.
Qed.

Lemma in_range_code lo hi c :
  Transfer.in_range lo hi c = TransferU.in_range (Z.of_nat lo) (Z.of_nat hi) (code c).
Proof.
  unfold Transfer.in_range, TransferU.in_range, code.
  destruct (Nat.leb_spec lo (nat_of_ascii c)), (Z.leb_spec (Z.of_nat lo) (Z.of_nat (nat_of_ascii c)));
  destruct (Nat.leb_spec (nat_of_ascii c) hi), (Z.leb_spec (Z.of_nat (nat_of_ascii c)) (Z.of_nat hi));
  simpl; lia.
Qed.

Lemma eqb_code c k : Ascii.eqb c k = (code c =? code k).
Proof.
  rewrite DateFacts.ascii_eqb_nat; unfold code.
  destruct (Nat.eqb_spec (nat_of_ascii c) (nat_of_ascii k)),
    (Z.eqb_spec (Z.of_nat (nat_of_ascii c)) (Z.of_nat (nat_of_ascii k))); lia.
Qed.

Lemma codes_10 d1 d2 sl1 m1 m2 sl2 y1 y2 y3 y4 :
  codes (String d1 (String d2 (String sl1 (String m1 (String m2 (String sl2
    (String y1 (String y2 (String y3 (String y4 EmptyString))))))))))
  = [code d1; code d2; code sl1; code m1; code m2; code sl2; code y1; code y2; code y3; code y4].
Proof. reflexivity. Qed.

Lemma validate_codes today s :
  validate_transfer_date today (codes s)
  = match Transfer.validate_transfer_date today s with
    | Ok s' => Ok (codes s') | Err e => Err e end.
Proof.
  destruct s as [|d1 [|d2 [|sl1 [|m1 [|m2 [|sl2 [|y1 [|y2 [|y3 [|y4 [|x s]]]]]]]]]]];
    try reflexivity.
  match goal with |- context [codes ?s] =>
    assert (Fe : date_format (codes s) = Transfer.date_format s) end.
  { rewrite codes_10; unfold date_format, Transfer.date_format.
    rewrite !in_range_code, !is_digit_code, !eqb_code, !udigit_latin1 by apply code_bound.
    reflexivity. }
  unfold validate_transfer_date, Transfer.validate_transfer_date; rewrite Fe.
  destruct (Transfer.date_format _) eqn:F; [|reflexivity].
  rewrite codes_10 in Fe; rewrite codes_10.
  rewrite strptime_latin1 by (exact Fe || apply code_bound).
  unfold Transfer.strptime_dmy, slice; simpl take; simpl drop; cbn [digits_value].
  change (digit_val ?c) with (code c - 48); cbv zeta.
  destruct (_ && _); [|reflexivity]. 
  destruct (date_lt _ today); [reflexivity|].
  destruct (_ || _); reflexivity.
Qed.
End UFacts.

(** ** Lemmas on the rest of the code *)

Module ExtraFacts.
Import PyFloat Store Transfer TransferSpec CodeSpec StrFacts Iban.

Lemma str_length_app (a b : string) : String.length (a ++ b) = (String.length a + String.length b)%nat.
Proof. induction a; simpl; auto. Qed.

Lemma length_drop n s : String.length (drop n s) = (String.length s - n)%nat.
Proof. revert s; induction n as [|n IH]; intros [|c s]; simpl; auto; lia. Qed.

(** A well-formed IBAN [ES cc bban] passes exactly when [cc] is the check
    code of [bban ++ "142800"]. *)
Lemma validate_iban_wf rest :
  String.length rest = 22%nat -> all_chars is_digit rest = true ->
  validate_iban (String "E" (String "S" rest)) =
  if digits_value 0 (take 2 rest) =? 98 - digits_value 0 (drop 2 rest ++ "142800") mod 97
  then Ok (drop 2 rest ++ "142800") else raise "Invalid IBAN control digit".
Proof.
  intros Hl Hd; rewrite IbanFacts.validate_iban_spec; unfold claimed_validate.
  assert (F : iban_format (String "E" (String "S" rest)) = true).
  { unfold iban_format; rewrite Hl, Hd; reflexivity. }
  rewrite F; simpl negb; cbv iota.
  assert (T : claimed_transform (String "E" (String "S" rest)) = drop 2 rest ++ "142800").
  { unfold claimed_transform; rewrite (IbanFacts.rotate_shape rest Hl).
    rewrite IbanFacts.subst_ES_app, IbanFacts.subst_ES_digits
      by (apply all_chars_drop; exact Hd).
    reflexivity. }
  rewrite T; reflexivity.
Qed.

Lemma validate_iban_ok_shape s n : validate_iban s = Ok n ->
  exists rest, s = String "E" (String "S" rest) /\ String.length rest = 22%nat
    /\ all_chars is_digit rest = true /\ n = drop 2 rest ++ "142800".
Proof.
  intro H.
  destruct (iban_format s) eqn:F.
  2:{ unfold validate_iban in H; rewrite F in H; discriminate H. }
  destruct s as [|e [|s' rest]]; try discriminate.
  unfold iban_format in F.
  apply andb_prop in F as [F Hd]; apply andb_prop in F as [F Hl];
    apply andb_prop in F as [He Hs].
  apply Ascii.eqb_eq in He, Hs; subst e s'.
  apply Nat.eqb_eq in Hl.
  rewrite (validate_iban_wf rest Hl Hd) in H.
  destruct (_ =? _); [|discriminate H].
  inversion H; subst; exists rest; auto.
Qed.

Lemma digit_ascii j : (j <= 9)%nat ->
  is_digit (ascii_of_nat (48 + j)) = true /\ digit_val (ascii_of_nat (48 + j)) = Z.of_nat j.
Proof.
  intro Hj; unfold is_digit, digit_val; rewrite nat_ascii_embedding by lia.
  split; [apply andb_true_intro; split; apply Nat.leb_le; lia|lia].
Qed.

Lemma two_digits_ok k : 0 <= k <= 99 ->
  String.length (two_digits k) = 2%nat /\ all_chars is_digit (two_digits k) = true
  /\ digits_value 0 (two_digits k) = k.
Proof.
  intro Hk.
  assert (H1 : 0 <= k / 10 < 10) by (split; [apply Z.div_pos|apply Z.div_lt_upper_bound]; lia).
  assert (H2 : 0 <= k mod 10 < 10) by (apply Z.mod_pos_bound; lia).
  destruct (digit_ascii (Z.to_nat (k / 10))) as [D1 V1]; [lia|].
  destruct (digit_ascii (Z.to_nat (k mod 10))) as [D2 V2]; [lia|].
  unfold two_digits.
  set (c1 := ascii_of_nat (48 + Z.to_nat (k / 10))) in *.
  set (c2 := ascii_of_nat (48 + Z.to_nat (k mod 10))) in *.
  cbn [String.length all_chars digits_value]; rewrite D1, D2, V1, V2.
  split; [reflexivity|split; [reflexivity|]].
  rewrite !Z2Nat.id by lia. pose proof (Z.div_mod k 10); lia.
Qed.

Lemma digit_val_inj a b : digit_val a = digit_val b -> a = b.
Proof.
  unfold digit_val; intro H.
  rewrite <- (ascii_nat_embedding a), <- (ascii_nat_embedding b).
  f_equal; lia.
Qed.

Lemma two_digit_inj cc cc' :
  String.length cc = 2%nat -> all_chars is_digit cc = true ->
  String.length cc' = 2%nat -> all_chars is_digit cc' = true ->
  digits_value 0 cc = digits_value 0 cc' -> cc = cc'.
Proof.
  destruct cc as [|a [|b [|]]]; try discriminate; intros _ D.
  destruct cc' as [|a' [|b' [|]]]; try discriminate; intros _ D' V.
  cbn [all_chars] in D, D'; cbn [digits_value] in V.
  rewrite andb_true_r in D, D'.
  apply andb_prop in D as [Da Db]; apply andb_prop in D' as [Da' Db'].
  apply DateFacts.digit_bounds in Da, Db, Da', Db'.
  assert (E1 : digit_val a = digit_val a') by lia.
  assert (E2 : digit_val b = digit_val b') by lia.
  apply digit_val_inj in E1, E2; subst; reflexivity.
Qed.

End ExtraFacts.

Module ConceptFacts.
Import Transfer CodeSpec.

Lemma words_shape_first sep s : words_shape 0 sep s = true -> first_is is_alpha s = true.
Proof.
  destruct s as [|c s]; simpl; [discriminate|].
  destruct (is_alpha c); [reflexivity|]; rewrite andb_false_r; discriminate.
Qed.

Lemma words_shape_last st sep s : words_shape st sep s = true -> s <> EmptyString ->
  last_is is_alpha s = true.
Proof.
  revert st sep; induction s as [|c s IH]; intros st sep H N; [contradiction|].
  destruct s as [|c' s'].
  - simpl in H |- *; destruct (is_alpha c); [reflexivity|].
    destruct (is_space c && (st =? 1)%nat); discriminate.
  - change (last_is is_alpha (String c (String c' s'))) with (last_is is_alpha (String c' s')).
    cbn [words_shape] in H.
    destruct (is_alpha c); [eapply IH; [exact H|discriminate]|].
    destruct (is_space c && (st =? 1)%nat); [eapply IH; [exact H|discriminate]|discriminate].
Qed.

Lemma words_shape_space st s : words_shape st false s = true -> exists_char is_space s = true.
Proof.
  revert st; induction s as [|c s IH]; intros st H; simpl in *.
  - rewrite andb_false_r in H; discriminate.
  - destruct (is_alpha c); [rewrite (IH _ H), orb_true_r; reflexivity|].
    destruct (is_space c) eqn:E; [reflexivity|discriminate].
Qed.

Lemma words_alpha st sep w rest : all_chars is_alpha w = true -> w <> EmptyString ->
  words_shape st sep (w ++ rest) = words_shape 1 sep rest.
Proof.
  revert st; induction w as [|c w IH]; intros st H N; [contradiction|].
  cbn [all_chars] in H; apply andb_prop in H as [Hc Hw].
  simpl; rewrite Hc.
  destruct w as [|c' w']; [reflexivity|].
  apply IH; [exact Hw|discriminate].
Qed.

Lemma has_char_none x p s : all_chars p s = true -> (forall c, p c = true -> c <> x) ->
  has_char x s = false.
Proof.
  intros H P; induction s as [|c s IH]; simpl in *; [reflexivity|].
  apply andb_prop in H as [Hc Hs].
  destruct (Ascii.eqb_spec x c) as [->|_]; [exfalso; exact (P c Hc eq_refl)|].
  exact (IH Hs).
Qed.

Lemma append_nil s : s ++ EmptyString = s.
Proof. induction s; simpl; [reflexivity|rewrite IHs; reflexivity]. Qed.

Lemma has_char_app x a b : has_char x (a ++ b) = has_char x a || has_char x b.
Proof. induction a as [|c a IH]; simpl; [reflexivity|rewrite IH, orb_assoc; reflexivity]. Qed.

Lemma alpha_not_newline c : is_alpha c = true -> c <> ascii_of_nat 10.
Proof.
  intros H ->; discriminate H.
Qed.

Lemma space_not_alpha c : is_space c = true -> is_alpha c = false.
Proof.
  intro H; destruct c as [[] [] [] [] [] [] [] []]; try reflexivity; discriminate H.
Qed.
End ConceptFacts.

Module StoreFacts.
Import PyFloat Store Transfer.

Lemma check_all_existsb r l :
  check_all r l = if existsb (fun x => same_fields x r) l
                  then raise "Duplicated transfer in transfer list" else Ok tt.
Proof.
  induction l as [|x l IH]; simpl; [reflexivity|].
  unfold is_duplicate_transfer; destruct (same_fields x r); simpl; [reflexivity|exact IH].
Qed.

Lemma eqb_refl_float a : a <> PNaN -> PyFloat.eqb a a = true.
Proof.
  destruct a as [m e| | |]; intro H; simpl; try reflexivity; [|contradiction].
  rewrite Z.min_id, Z.sub_diag; apply Z.eqb_refl.
Qed.
End StoreFacts.

Module BalanceFacts.
Import PyFloat Account CodeSpec.

Lemma sum_matching_spec iban l found bal :
  sum_matching iban l found bal =
  let* xs := parse_all (matching_amounts iban l) in
  Ok (match xs with [] => found | _ => true end, fold_left add xs bal).
Proof.
  revert found bal; induction l as [|t l IH]; intros found bal; [reflexivity|].
  unfold matching_amounts; cbn [filter sum_matching].
  destruct (String.eqb (tx_iban t) iban).
  - cbn [map parse_all]. destruct (of_string (tx_amount t)) as [x|e]; [|reflexivity].
    cbn [bind]; rewrite IH; unfold matching_amounts.
    destruct (parse_all _) as [xs|e]; [|reflexivity].
    cbn [bind fold_left]; destruct xs; reflexivity.
  - exact (IH found bal).
Qed.

Lemma first_digit_not_E n : first_is is_digit n = true ->
  first_is (fun c => Ascii.eqb c "E") n = false.
Proof.
  destruct n as [|c n]; [reflexivity|]; cbn [first_is].
  destruct (Ascii.eqb_spec c "E") as [->|]; [discriminate|reflexivity].
Qed.

Lemma matching_none n t_l :
  first_is (fun c => Ascii.eqb c "E") n = false ->
  Forall (fun t => first_is (fun c => Ascii.eqb c "E") (tx_iban t) = true) t_l ->
  matching_amounts n t_l = [].
Proof.
  intros Hn F; unfold matching_amounts; induction F as [|t t_l Ht _ IH]; [reflexivity|].
  cbn [filter]; destruct (String.eqb_spec (tx_iban t) n) as [E|_]; [congruence|exact IH].
Qed.
Lemma sum_matching_filter iban t_l found bal :
  sum_matching iban t_l found bal
  = sum_matching iban (filter (fun t => String.eqb (tx_iban t) iban) t_l) found bal.
Proof.
  revert found bal; induction t_l as [|t t_l IH]; intros found bal; [reflexivity|].
  cbn [filter]; destruct (String.eqb (tx_iban t) iban) eqn:E; cbn [sum_matching]; rewrite E.
  - destruct (of_string (tx_amount t)); cbn [bind]; [apply IH|reflexivity].
  - apply IH.
Qed.

Lemma sum_matching_none iban t_l found bal :
  forallb (fun t => negb (String.eqb (tx_iban t) iban)) t_l = true ->
  sum_matching iban t_l found bal = Ok (found, bal).
Proof.
  induction t_l as [|t t_l IH]; [reflexivity|]; cbn [forallb sum_matching].
  destruct (String.eqb (tx_iban t) iban); [discriminate|exact IH].
Qed.

End BalanceFacts.

(* ================================================================== *)
(** * The claims *)

Import PyFloat Store Transfer TransferSpec.

(** C1.  [validate_iban] raises "Invalid IBAN format" on every string that is
    not [ES] and 22 digits; on the others, with [N] the number read from
    the claimed transform (check code zeroed, first four characters moved to
    the end, [E] -> [14], [S] -> [28]), it returns that numeric string when
    the declared code equals [98 - N mod 97] and raises "Invalid IBAN control
    digit" otherwise.  [ES9121000418450200051332] is accepted with result
    [21000418450200051332142800]; [ES0021000418450200051332] fails the
    checksum. *)
Theorem C1_validate_iban_mod97 :
  (forall iban, Iban.validate_iban iban = Iban.claimed_validate iban)
  /\ Iban.validate_iban "ES9121000418450200051332"
     = Ok (Iban.claimed_transform "ES9121000418450200051332")
  /\ Iban.claimed_transform "ES9121000418450200051332" = "21000418450200051332142800"
  /\ Iban.validate_iban "ES0021000418450200051332" = raise "Invalid IBAN control digit".
Proof.
  split; [exact IbanFacts.validate_iban_spec|].
  split; [vm_compute; reflexivity|].
  split; vm_compute; reflexivity.
Qed.

(** C2 fails: [transfer_code] is the MD5 of [str(self)], which serialises
    [self.__dict__], and that dict holds the store file path besides the
    fields and the construction time stamp.  Two constructions with the same
    six content fields and the same time stamp, one stored in
    [transfers.json] and one in [other.json], return different codes; so do
    two with time stamps 1760400000.5 and 1760400001.5. *)
Lemma C2_transfer_code_varies :
  let go p ts := fst (am_transfer_request p "ES9121000418450200051332"
                   "ES9121000418450200051332" "Pago de alquiler" "ORDINARY" "15/11/2026"
                   (PFin 15050 (-2)) ts (2026, 10, 14) NoFile) in
  (exists c1 c2, go "transfers.json" (PFin 17604000005 (-1)) = Ok c1
              /\ go "transfers.json" (PFin 17604000015 (-1)) = Ok c2 /\ c1 <> c2)
  /\ (exists c1 c2, go "transfers.json" (PFin 17604000005 (-1)) = Ok c1
              /\ go "other.json" (PFin 17604000005 (-1)) = Ok c2 /\ c1 <> c2).
Proof.
  cbv beta zeta; split; do 2 eexists;
    (split; [vm_compute; reflexivity|split; [vm_compute; reflexivity|]]);
    intro H; discriminate H.
Qed.

(** C5.  Construction runs the validators in the order IBAN(from), IBAN(to),
    concept, type, date, amount and stops at the first error, which it
    raises; only when all pass is the store touched; and whenever
    construction raises (a validator, a duplicate, an unreadable store, an
    unwritable path), the store file is returned unchanged. *)
Theorem C5_validation_order_atomic f ty t c d a p ts today st :
  new_transfer_request f ty t c d a p ts today st =
    (let r := mkTR p f t ty c d a ts in
     match first_error (claimed_order today r) with
     | Some e => (Err e, st)
     | None => match store_transfer_request r st with
               | (Err e, st') => (Err e, st')
               | (Ok _, st') => (Ok r, st')
               end
     end)
  /\ match new_transfer_request f ty t c d a p ts today st with
     | (Err _, st') => st' = st
     | (Ok _, _) => True
     end.
Proof.
  assert (E : new_transfer_request f ty t c d a p ts today st =
    (let r := mkTR p f t ty c d a ts in
     match first_error (claimed_order today r) with
     | Some e => (Err e, st)
     | None => match store_transfer_request r st with
               | (Err e, st') => (Err e, st')
               | (Ok _, st') => (Ok r, st')
               end
     end)).
  { unfold new_transfer_request; rewrite TransferFacts.validations_order.
    destruct (first_error _); reflexivity. }
  split; [exact E|]. rewrite E; cbv zeta.
  destruct (first_error _); [reflexivity|].
  destruct (store_transfer_request _ _) as [[u|e] st'] eqn:S; [exact I|].
  exact (TransferFacts.store_transfer_request_err _ _ _ _ S).
Qed.

(** C7 fails on strings that hold non-ASCII digits.  On every Latin-1
    string [validate_transfer_date] accepts exactly the [DD/MM/YYYY] dates
    that exist, are not before today and have their year in [[2025, 2050]].
    But [\d] and [int()] take every Unicode decimal digit: with today
    2026-10-14, ["1\u0665/11/2026"] (ARABIC-INDIC DIGIT FIVE as the second
    digit) and ["15/11/\u0662\u0660\u0662\u0666"] are accepted as
    15/11/2026, while ["0\u0665/11/2026"], where [strptime]'s [0[1-9]] asks
    for an ASCII digit, is rejected. *)
Theorem C7_unicode_digit_dates :
  (forall today s,
      is_ok (TransferU.validate_transfer_date today (TransferU.codes s))
      = claimed_date_ok today s)
  /\ TransferU.validate_transfer_date (2026, 10, 14)
       (49 :: 1637 :: TransferU.codes "/11/2026")
     = Ok (49 :: 1637 :: TransferU.codes "/11/2026")
  /\ TransferU.strptime_dmy (49 :: 1637 :: TransferU.codes "/11/2026") = Ok (2026, 11, 15)
  /\ TransferU.validate_transfer_date (2026, 10, 14)
       (TransferU.codes "15/11/" ++ [1634; 1632; 1634; 1638])%list
     = Ok (TransferU.codes "15/11/" ++ [1634; 1632; 1634; 1638])%list
  /\ TransferU.validate_transfer_date (2026, 10, 14)
       (48 :: 1637 :: TransferU.codes "/11/2026")
     = raise "Invalid date format".
Proof.
  split.
  - intros today s; rewrite UFacts.validate_codes, <- DateFacts.validate_date_spec.
    destruct (validate_transfer_date today s); reflexivity.
  - split; [vm_compute; reflexivity|].
    split; [vm_compute; reflexivity|].
    split; vm_compute; reflexivity.
Qed.

(** C3 fails on both managers.  With the log
    [[{"IBAN": "ES9121000418450200051332", "amount": "100.0"},
      {"IBAN": "ES9121000418450200051332", "amount": "-30.0"}]]
    the G8X [calculate_balance("ES9121000418450200051332")] raises
    "IBAN not found": it rebinds [iban] to the numeric transform
    [21000418450200051332142800] returned by [validate_iban] and compares the
    log's [ES...] strings with that.  The src version raises
    [AttributeError] (it has no [validate_iban]).  The loop itself, run on
    the raw IBAN, stores the snapshot with [BALANCE = 70.0]. *)
Theorem C3_balance_example_fails ts dep bal :
  let iban := "ES9121000418450200051332" in
  let s := Account.mkState dep
             (Records [Account.mkTx iban "100.0"; Account.mkTx iban "-30.0"])
             (Records bal) in
  ManagerG8X.calculate_balance iban ts s = (raise "IBAN not found", s)
  /\ ManagerSrc.calculate_balance iban ts s = (Err (AttributeError "validate_iban"), s)
  /\ Account.balance_after_validation iban ts s
     = (Ok true, Account.mkState dep (Account.transactions s)
                   (Records (bal ++ [Account.mkBal iban ts (PFin 700 (-1))])))
  /\ PyFloat.eqb (PFin 700 (-1)) (PFin 70 0) = true.
Proof.
  cbv zeta; split; [|split; [|split]]; vm_compute; reflexivity.
Qed.

(** C4 fails on [nan].  [float("nan")] passes [validate_amount] (see C6),
    and [is_duplicate_transfer] compares amounts with [==], which is false on
    [nan]: submitting the same six fields twice, with amount [nan], succeeds
    both times, and the store then holds two records with the very same six
    field values (which [==] calls different, as [nan != nan]). *)
Theorem C4_nan_duplicate_accepted :
  let f := "ES9121000418450200051332" in
  let t := "ES9121000418450200051332" in
  let go ts st := new_transfer_request f "ORDINARY" t "Pago de alquiler" "15/11/2026"
                    PNaN "transfers.json" ts (2026, 10, 14) st in
  exists r1 r2 st1 st2,
    go (PFin 17604000005 (-1)) NoFile = (Ok r1, st1)
    /\ go (PFin 17604000015 (-1)) st1 = (Ok r2, st2)
    /\ st2 = Records [to_json r1; to_json r2]
    /\ tuple6 (to_json r1) = tuple6 (to_json r2)
    /\ same_tuple (to_json r1) (to_json r2) = false.
Proof.
  cbv beta zeta; do 4 eexists.
  split; [vm_compute; reflexivity|].
  split; [vm_compute; reflexivity|].
  split; [reflexivity|].
  split; vm_compute; reflexivity.
Qed.

(** C6 fails on [nan].  [validate_amount(float("nan"))]: [str] gives
    ["nan"], with no dot, and both [nan < 10] and [nan > 10000] are false,
    so the amount is accepted although it is no decimal in [[10, 10000]].
    The examples of the claim hold: 9.99, 10000.01 and 10.005 are rejected
    with "Invalid transfer amount", 10.00 and 10000.00 are accepted, and so
    are infinities rejected. *)
Theorem C6_nan_amount_accepted :
  validate_amount PNaN = Ok tt
  /\ lt_int PNaN 10 = false /\ gt_int PNaN 10000 = false
  /\ validate_amount (PFin 999 (-2)) = raise "Invalid transfer amount"
  /\ validate_amount (PFin 1000 (-2)) = Ok tt
  /\ validate_amount (PFin 1000000 (-2)) = Ok tt
  /\ validate_amount (PFin 1000001 (-2)) = raise "Invalid transfer amount"
  /\ validate_amount (PFin 10005 (-3)) = raise "Invalid transfer amount"
  /\ validate_amount PInf = raise "Invalid transfer amount"
  /\ validate_amount PNegInf = raise "Invalid transfer amount".
Proof.
  repeat split; vm_compute; reflexivity.
Qed.

(** C8 fails: both type checks use [re.fullmatch], so a string that only
    contains an accepted literal is rejected, and the two versions spell the
    middle literal differently: the src [TransferRequest] rejects
    ["IMMEDIATE"] and ["URGENT transfer"]; the G8X [AccountManager] rejects
    ["INMEDIATE"] and ["ORDINARY payment"]. *)
Lemma C8_transfer_type_substring :
  validate_transfer_type "IMMEDIATE" = raise "Invalid transfer type"
  /\ validate_transfer_type "URGENT transfer" = raise "Invalid transfer type"
  /\ ManagerG8X.transfer_type_format "INMEDIATE" = false
  /\ ManagerG8X.transfer_type_format "ORDINARY payment" = false.
Proof.
  repeat split; vm_compute; reflexivity.
Qed.

(** C8 as the code has it: the src [TransferRequest] accepts exactly the
    three strings [ORDINARY], [INMEDIATE], [URGENT]; the G8X
    [AccountManager] accepts exactly [ORDINARY], [IMMEDIATE], [URGENT]. *)
Theorem C8_transfer_type_exact t :
  (is_ok (validate_transfer_type t) = true <-> In t ["ORDINARY"; "INMEDIATE"; "URGENT"])
  /\ (ManagerG8X.transfer_type_format t = true <-> In t ["ORDINARY"; "IMMEDIATE"; "URGENT"]).
Proof.
  unfold validate_transfer_type, Transfer.transfer_type_format,
    ManagerG8X.transfer_type_format.
  split; split.
  - destruct (String.eqb_spec t "ORDINARY"), (String.eqb_spec t "INMEDIATE"),
      (String.eqb_spec t "URGENT"); subst; cbn; intuition discriminate.
  - intros [<-|[<-|[<-|[]]]]; reflexivity.
  - destruct (String.eqb_spec t "ORDINARY"), (String.eqb_spec t "IMMEDIATE"),
      (String.eqb_spec t "URGENT"); subst; cbn; intuition discriminate.
  - intros [<-|[<-|[<-|[]]]]; reflexivity.
Qed.

(** C9 fails on both managers.  On the zero example
    [{"IBAN": "ES9121000418450200051332", "AMOUNT": "EUR 0000.00"}] the src
    [deposit_into_account] raises [AttributeError] (it has no
    [validate_iban]), not "Deposit must be greater than 0".  The G8X version
    has that error on the example, but its format test is a tuple, always
    true: ["EUR 12.50"], which is not [EUR] and 4 digits, a dot and 2
    digits, is stored as a deposit of 12.5 instead of being rejected. *)
Theorem C9_deposit_amount_divergence sign :
  let s0 := Account.mkState NoFile NoFile NoFile in
  let inp a := Account.InJson [("IBAN", Json.JStr "ES9121000418450200051332");
                               ("AMOUNT", Json.JStr a)] in
  ManagerSrc.deposit_into_account sign (inp "EUR 0000.00") s0
    = (Err (AttributeError "validate_iban"), s0)
  /\ ManagerG8X.deposit_into_account sign (inp "EUR 0000.00") s0
    = (raise "Error - Deposit must be greater than 0", s0)
  /\ Account.deposit_format "EUR 12.50" = false
  /\ ManagerG8X.deposit_into_account sign (inp "EUR 12.50") s0
    = (Ok (sign "21000418450200051332142800" (PFin 1250 (-2))),
       Account.mkState
         (Records [Account.account_deposit sign "21000418450200051332142800"
                     (PFin 1250 (-2))])
         NoFile NoFile).
Proof.
  cbv zeta; repeat split; vm_compute; reflexivity.
Qed.

(** C10.  The src [AccountManager] has no [validate_iban], so
    [deposit_into_account] on a readable JSON object with both keys, and
    [calculate_balance] on any IBAN, raise [AttributeError] (not an
    [AccountManagementException]) and leave every store unchanged. *)
Theorem C10_src_manager_attribute_error sign obj s :
  is_ok (Account.get_keys obj) = true ->
  ManagerSrc.deposit_into_account sign (Account.InJson obj) s
    = (Err (AttributeError "validate_iban"), s)
  /\ forall iban ts, ManagerSrc.calculate_balance iban ts s
                     = (Err (AttributeError "validate_iban"), s).
Proof.
  intros K; split.
  - unfold ManagerSrc.deposit_into_account; cbn [Account.open_input].
    destruct (Account.get_keys obj) as [[i a]|e]; [reflexivity|discriminate K].
  - intros iban ts; reflexivity.
Qed.

Lemma C10_src_manager_attribute_error_witness :
  ManagerSrc.deposit_into_account (fun _ _ => "sig")
    (Account.InJson [("IBAN", Json.JStr "ES9121000418450200051332");
                     ("AMOUNT", Json.JStr "EUR 0100.00")])
    (Account.mkState NoFile NoFile NoFile)
  = (Err (AttributeError "validate_iban"), Account.mkState NoFile NoFile NoFile).
Proof.
  refine (proj1 (C10_src_manager_attribute_error (fun _ _ => "sig")
    [("IBAN", Json.JStr "ES9121000418450200051332"); ("AMOUNT", Json.JStr "EUR 0100.00")]
    (Account.mkState NoFile NoFile NoFile) _)).
  reflexivity.
Defined.

(* ================================================================== *)
(** * Further properties of the code *)

Import Json Account CodeSpec.

(** X1.  On success [validate_iban] returns [iban[4:] + "142800"]: the 20
    digits after the check code followed by [ES00] as digits, a string of 26
    ASCII digits (not an IBAN). *)
Theorem X1_validate_iban_result s n :
  Iban.validate_iban s = Ok n ->
  n = drop 4 s ++ "142800" /\ String.length n = 26%nat /\ all_chars is_digit n = true.
Proof.
  intro H; apply ExtraFacts.validate_iban_ok_shape in H as (rest & -> & Hl & Hd & ->).
  split; [reflexivity|split].
  - rewrite ExtraFacts.str_length_app, ExtraFacts.length_drop, Hl; reflexivity.
  - rewrite StrFacts.all_chars_app, StrFacts.all_chars_drop by exact Hd; reflexivity.
Qed.

Lemma X1_validate_iban_result_witness :
  Iban.validate_iban "ES9121000418450200051332" = Ok "21000418450200051332142800"
  /\ "21000418450200051332142800" = drop 4 "ES9121000418450200051332" ++ "142800"
  /\ String.length "21000418450200051332142800" = 26%nat
  /\ all_chars is_digit "21000418450200051332142800" = true.
Proof.
  assert (H : Iban.validate_iban "ES9121000418450200051332" = Ok "21000418450200051332142800")
    by (vm_compute; reflexivity).
  split; [exact H|exact (X1_validate_iban_result _ _ H)].
Defined.

(** X2.  For every 20-digit account number [b] there is exactly one pair
    of decimal digits [cc] for which [validate_iban("ES" + cc + b)] succeeds. *)
Theorem X2_check_digits_unique b :
  String.length b = 20%nat -> all_chars is_digit b = true ->
  exists cc, (String.length cc = 2%nat /\ all_chars is_digit cc = true
              /\ is_ok (Iban.validate_iban ("ES" ++ cc ++ b)) = true)
    /\ forall cc', String.length cc' = 2%nat -> all_chars is_digit cc' = true ->
         is_ok (Iban.validate_iban ("ES" ++ cc' ++ b)) = true -> cc' = cc.
Proof.
  intros Hl Hd.
  set (k := 98 - digits_value 0 (b ++ "142800") mod 97).
  assert (Hk : 0 <= k <= 99).
  { pose proof (Z.mod_pos_bound (digits_value 0 (b ++ "142800")) 97); unfold k; lia. }
  assert (E : forall cc, String.length cc = 2%nat -> all_chars is_digit cc = true ->
            is_ok (Iban.validate_iban ("ES" ++ cc ++ b)) = (digits_value 0 cc =? k)).
  { intros cc Lc Dc.
    change ("ES" ++ cc ++ b) with (String "E" (String "S" (cc ++ b))).
    rewrite ExtraFacts.validate_iban_wf.
    - rewrite <- Lc, StrFacts.take_app_length, StrFacts.drop_app_length.
      fold k; destruct (_ =? _); reflexivity.
    - rewrite ExtraFacts.str_length_app, Lc, Hl; reflexivity.
    - rewrite StrFacts.all_chars_app, Dc, Hd; reflexivity. }
  destruct (ExtraFacts.two_digits_ok k Hk) as (L2 & D2 & V2).
  exists (two_digits k); split; [split; [exact L2|split; [exact D2|]]|].
  - rewrite E by assumption; rewrite V2; apply Z.eqb_refl.
  - intros cc' L' D' O; rewrite E in O by assumption.
    apply Z.eqb_eq in O.
    apply ExtraFacts.two_digit_inj; auto; congruence.
Qed.

Lemma X2_check_digits_unique_witness :
  exists cc, (String.length cc = 2%nat /\ all_chars is_digit cc = true
              /\ is_ok (Iban.validate_iban ("ES" ++ cc ++ "21000418450200051332")) = true)
    /\ forall cc', String.length cc' = 2%nat -> all_chars is_digit cc' = true ->
         is_ok (Iban.validate_iban ("ES" ++ cc' ++ "21000418450200051332")) = true -> cc' = cc.
Proof.
  apply X2_check_digits_unique; reflexivity.
Defined.

(** X3.  The string [validate_iban] returns is never accepted by
    [validate_iban] itself: it starts with a digit, so the check raises
    "Invalid IBAN format". *)
Theorem X3_validate_iban_not_idempotent s n :
  Iban.validate_iban s = Ok n -> Iban.validate_iban n = raise "Invalid IBAN format".
Proof.
  intro H; apply ExtraFacts.validate_iban_ok_shape in H as (rest & -> & Hl & Hd & ->).
  pose proof (StrFacts.all_chars_drop is_digit 2 rest Hd) as Hd2.
  pose proof (ExtraFacts.length_drop 2 rest) as Hl2; rewrite Hl in Hl2.
  destruct (drop 2 rest) as [|c r]; [discriminate Hl2|].
  cbn [all_chars] in Hd2; apply andb_prop in Hd2 as [Hc _].
  unfold Iban.validate_iban, Iban.iban_format.
  destruct (String c r ++ "142800") as [|c0 [|c1 r1]] eqn:X; [reflexivity|reflexivity|].
  injection X as <- _.
  destruct (Ascii.eqb_spec c "E") as [->|Ne]; [discriminate Hc|reflexivity].
Qed.

Lemma X3_validate_iban_not_idempotent_witness :
  Iban.validate_iban "21000418450200051332142800" = raise "Invalid IBAN format".
Proof.
  apply (X3_validate_iban_not_idempotent "ES9121000418450200051332").
  vm_compute; reflexivity.
Defined.



(** X4.  An accepted concept has 10 to 30 characters, starts and ends with
    an ASCII letter, contains a [\s] character and no newline. *)
Theorem X4_concept_shape c :
  validate_concept c = Ok tt ->
  (10 <= String.length c <= 30)%nat /\ first_is is_alpha c = true
  /\ last_is is_alpha c = true /\ exists_char is_space c = true
  /\ has_char (ascii_of_nat 10) c = false.
Proof.
  unfold validate_concept; destruct (concept_format c) eqn:F; [|discriminate].
  intros _; unfold concept_format in F.
  apply andb_prop in F as [F W]; apply andb_prop in F as [F N];
    apply andb_prop in F as [L1 L2]; apply Nat.leb_le in L1, L2.
  apply negb_true_iff in N.
  split; [lia|split; [exact (ConceptFacts.words_shape_first _ _ W)|split]].
  - apply (ConceptFacts.words_shape_last _ _ _ W); intros ->; simpl in L1; lia.
  - split; [exact (ConceptFacts.words_shape_space _ _ W)|exact N].
Qed.

Lemma X4_concept_shape_witness :
  validate_concept "Pago de alquiler" = Ok tt
  /\ (10 <= String.length "Pago de alquiler" <= 30)%nat /\ first_is is_alpha "Pago de alquiler" = true
  /\ last_is is_alpha "Pago de alquiler" = true /\ exists_char is_space "Pago de alquiler" = true
  /\ has_char (ascii_of_nat 10) "Pago de alquiler" = false.
Proof.
  assert (H : validate_concept "Pago de alquiler" = Ok tt) by reflexivity.
  split; [exact H|exact (X4_concept_shape _ H)].
Defined.

(** X5.  Two non-empty runs of ASCII letters joined by one whitespace
    character other than a newline (a space, a tab, ...) form an accepted
    concept whenever the total length is between 10 and 30. *)
Theorem X5_concept_two_words w1 sp w2 :
  all_chars is_alpha w1 = true -> w1 <> EmptyString ->
  all_chars is_alpha w2 = true -> w2 <> EmptyString ->
  is_space sp = true -> sp <> ascii_of_nat 10 ->
  (10 <= String.length w1 + 1 + String.length w2 <= 30)%nat ->
  validate_concept (w1 ++ String sp w2) = Ok tt.
Proof.
  intros A1 N1 A2 N2 S NL L.
  unfold validate_concept, concept_format.
  rewrite ExtraFacts.str_length_app; cbn [String.length].
  replace ((10 <=? _)%nat && (_ <=? 30)%nat) with true
    by (symmetry; apply andb_true_intro; split; apply Nat.leb_le; lia).
  rewrite (ConceptFacts.words_alpha _ _ _ _ A1 N1); cbn [words_shape].
  rewrite (ConceptFacts.space_not_alpha _ S), S; cbn [andb Nat.eqb].
  rewrite <- (ConceptFacts.append_nil w2) at 2.
  rewrite (ConceptFacts.words_alpha _ _ _ _ A2 N2); cbn [words_shape Nat.eqb andb].
  rewrite ConceptFacts.has_char_app, (ConceptFacts.has_char_none _ _ _ A1 ConceptFacts.alpha_not_newline); cbn [has_char orb].
  rewrite (ConceptFacts.has_char_none _ _ _ A2 ConceptFacts.alpha_not_newline).
  destruct (Ascii.eqb_spec (ascii_of_nat 10) sp) as [E|_]; [congruence|reflexivity].
Qed.

Lemma X5_concept_two_words_witness :
  validate_concept ("Pago" ++ String (ascii_of_nat 9) "alquiler") = Ok tt.
Proof.
  apply X5_concept_two_words; try reflexivity; try discriminate; simpl; lia.
Defined.



(** X6.  [validate_amount] accepts only [nan] and finite amounts [x] with
    [10 <= x <= 10000] whose [str] has at most two digits after the dot; in
    particular it rejects both infinities. *)
Theorem X6_amount_accepted x :
  validate_amount x = Ok tt ->
  x = PNaN \/ exists m e, x = PFin m e /\ fin_cmp m e 10 <> Lt /\ fin_cmp m e 10000 <> Gt
                     /\ forall rest, after_dot (repr x) = Some rest ->
                        (String.length (upto_dot rest) <= 2)%nat.
Proof.
  intro H; unfold validate_amount in H; cbv zeta in H.
  destruct x as [m e| | |]; [right|left; reflexivity|discriminate H|discriminate H].
  exists m, e; split; [reflexivity|].
  destruct (after_dot (repr (PFin m e))) as [rest|] eqn:A.
  - destruct (2 <? String.length (upto_dot rest))%nat eqn:L; [discriminate H|].
    destruct (lt_int (PFin m e) 10 || gt_int (PFin m e) 10000) eqn:R; [discriminate H|].
    apply orb_false_iff in R as [R1 R2]; unfold lt_int, gt_int in R1, R2.
    split; [intro X; rewrite X in R1; discriminate R1|].
    split; [intro X; rewrite X in R2; discriminate R2|].
    intros rest' E; injection E as <-; apply Nat.ltb_ge; exact L.
  - destruct (lt_int (PFin m e) 10 || gt_int (PFin m e) 10000) eqn:R; [discriminate H|].
    apply orb_false_iff in R as [R1 R2]; unfold lt_int, gt_int in R1, R2.
    split; [intro X; rewrite X in R1; discriminate R1|].
    split; [intro X; rewrite X in R2; discriminate R2|].
    intros rest' E; discriminate E.
Qed.

Lemma X6_amount_accepted_witness :
  exists m e, PFin 150 (-1) = PFin m e /\ fin_cmp m e 10 <> Lt /\ fin_cmp m e 10000 <> Gt
    /\ forall rest, after_dot (repr (PFin 150 (-1))) = Some rest ->
       (String.length (upto_dot rest) <= 2)%nat.
Proof.
  destruct (X6_amount_accepted (PFin 150 (-1))) as [H|H];
    [vm_compute; reflexivity|discriminate H|exact H].
Defined.

(** X7.  A successful [TransferRequest] construction holds exactly its
    arguments and appends its [to_json] record after the records the store
    held, none of which is [==] to it on the six fields. *)
Theorem X7_request_appends f ty t c d a p ts today st r st' :
  new_transfer_request f ty t c d a p ts today st = (Ok r, st') ->
  r = mkTR p f t ty c d a ts
  /\ exists l, load_or_empty st = Ok l /\ Forall (fun x => same_fields x r = false) l
               /\ st' = Records (l ++ [to_json r]).
Proof.
  intro E; split; [exact (TransferFacts.new_transfer_request_ok _ _ _ _ _ _ _ _ _ _ _ _ E)|].
  apply TransferFacts.new_transfer_request_store in E as (l & L & C & ->).
  exists l; split; [exact L|split; [exact (TransferFacts.check_all_ok _ _ C)|reflexivity]].
Qed.

Lemma X7_request_appends_witness :
  exists r st', new_transfer_request "ES9121000418450200051332" "ORDINARY"
    "ES9121000418450200051332" "Pago de alquiler" "15/11/2026" (PFin 15050 (-2))
    "transfers.json" (PFin 17604000005 (-1)) (2026, 10, 14) NoFile = (Ok r, st')
  /\ r = mkTR "transfers.json" "ES9121000418450200051332" "ES9121000418450200051332"
           "ORDINARY" "Pago de alquiler" "15/11/2026" (PFin 15050 (-2)) (PFin 17604000005 (-1))
  /\ exists l, load_or_empty (A := transfer_record) NoFile = Ok l
       /\ Forall (fun x => same_fields x r = false) l /\ st' = Records (l ++ [to_json r]).
Proof.
  do 2 eexists.
  match goal with |- ?A /\ _ => assert (H : A) by (vm_compute; reflexivity) end.
  split; [exact H|exact (X7_request_appends _ _ _ _ _ _ _ _ _ _ _ _ H)].
Defined.



(** X9.  On a readable store, a request that passes the validators is
    rejected as a duplicate exactly when some stored record is [==] to it on
    the six fields; otherwise its record is appended. *)
Theorem X9_duplicate_iff f ty t c d a p ts today l :
  validations today (mkTR p f t ty c d a ts) = Ok tt ->
  new_transfer_request f ty t c d a p ts today (Records l)
  = if existsb (fun x => same_fields x (mkTR p f t ty c d a ts)) l
    then (raise "Duplicated transfer in transfer list", Records l)
    else (Ok (mkTR p f t ty c d a ts), Records (l ++ [to_json (mkTR p f t ty c d a ts)])).
Proof.
  intro V; unfold new_transfer_request, store_transfer_request; cbv zeta; rewrite V.
  cbn [load_or_empty]; rewrite StoreFacts.check_all_existsb.
  destruct (existsb _ l); reflexivity.
Qed.

Lemma X9_duplicate_iff_witness :
  new_transfer_request "ES9121000418450200051332" "ORDINARY"
    "ES9121000418450200051332" "Pago de alquiler" "15/11/2026" (PFin 15050 (-2))
    "transfers.json" (PFin 17604000005 (-1)) (2026, 10, 14) (Records [])
  = if existsb (fun x => same_fields x (mkTR "transfers.json" "ES9121000418450200051332"
          "ES9121000418450200051332" "ORDINARY" "Pago de alquiler" "15/11/2026"
          (PFin 15050 (-2)) (PFin 17604000005 (-1)))) []
    then (raise "Duplicated transfer in transfer list", Records [])
    else (Ok (mkTR "transfers.json" "ES9121000418450200051332"
          "ES9121000418450200051332" "ORDINARY" "Pago de alquiler" "15/11/2026"
          (PFin 15050 (-2)) (PFin 17604000005 (-1))),
          Records ([] ++ [to_json (mkTR "transfers.json" "ES9121000418450200051332"
          "ES9121000418450200051332" "ORDINARY" "Pago de alquiler" "15/11/2026"
          (PFin 15050 (-2)) (PFin 17604000005 (-1)))])).
Proof.
  apply X9_duplicate_iff; vm_compute; reflexivity.
Defined.

(** X10.  When [AccountManager.transfer_request] returns a code, the
    store ends with a record holding the six fields, the time stamp and that
    same code, after the records it held before. *)
Theorem X10_code_stored p f t c ty d a ts today st code st' :
  am_transfer_request p f t c ty d a ts today st = (Ok code, st') ->
  exists l, load_or_empty st = Ok l /\ st' = Records (l ++ [mkRec f t ty a c d ts code]).
Proof.
  unfold am_transfer_request.
  destruct (new_transfer_request _ _ _ _ _ _ _ _ _ _) as [[r|e] st0] eqn:E; [|discriminate].
  intro H; injection H as <- <-.
  pose proof (TransferFacts.new_transfer_request_ok _ _ _ _ _ _ _ _ _ _ _ _ E) as ->.
  apply TransferFacts.new_transfer_request_store in E as (l & L & _ & ->).
  exists l; split; [exact L|reflexivity].
Qed.

Lemma X10_code_stored_witness :
  exists code st' l,
    am_transfer_request "transfers.json" "ES9121000418450200051332"
      "ES9121000418450200051332" "Pago de alquiler" "ORDINARY" "15/11/2026"
      (PFin 15050 (-2)) (PFin 17604000005 (-1)) (2026, 10, 14) NoFile = (Ok code, st')
    /\ load_or_empty (A := transfer_record) NoFile = Ok l
    /\ st' = Records (l ++ [mkRec "ES9121000418450200051332" "ES9121000418450200051332"
                "ORDINARY" (PFin 15050 (-2)) "Pago de alquiler" "15/11/2026"
                (PFin 17604000005 (-1)) code]).
Proof.
  do 2 eexists.
  match goal with |- exists l, ?A /\ _ => assert (H : A) by (vm_compute; reflexivity) end.
  destruct (X10_code_stored _ _ _ _ _ _ _ _ _ _ _ _ H) as (l & L & E).
  exists l; split; [exact H|split; [exact L|exact E]].
Defined.

(** X11.  After a successful [AccountManager.transfer_request], calling it
    again with the same fields and an amount other than [nan], while those
    fields still pass validation, raises "Duplicated transfer in transfer
    list" and leaves the store unchanged. *)
Theorem X11_resubmission_rejected p f t c ty d a ts1 ts2 today1 today2 st code st1 :
  a <> PNaN ->
  am_transfer_request p f t c ty d a ts1 today1 st = (Ok code, st1) ->
  validations today2 (mkTR p f t ty c d a ts2) = Ok tt ->
  am_transfer_request p f t c ty d a ts2 today2 st1
  = (raise "Duplicated transfer in transfer list", st1).
Proof.
  intros Hn E V; unfold am_transfer_request in *.
  destruct (new_transfer_request f ty t c d a p ts1 today1 st) as [[r|e] st0] eqn:E1;
    [|discriminate E].
  injection E as _ <-.
  rewrite (TransferFacts.second_submission_duplicate _ _ _ _ _ _ _ _ _ _ _ _ _ _ E1
             (StoreFacts.eqb_refl_float a Hn) V).
  reflexivity.
Qed.

Lemma X11_resubmission_rejected_witness :
  exists code st1,
    am_transfer_request "transfers.json" "ES9121000418450200051332"
      "ES9121000418450200051332" "Pago de alquiler" "ORDINARY" "15/11/2026"
      (PFin 15050 (-2)) (PFin 17604000005 (-1)) (2026, 10, 14) NoFile = (Ok code, st1)
    /\ am_transfer_request "transfers.json" "ES9121000418450200051332"
      "ES9121000418450200051332" "Pago de alquiler" "ORDINARY" "15/11/2026"
      (PFin 15050 (-2)) (PFin 17604000015 (-1)) (2026, 10, 20) st1
      = (raise "Duplicated transfer in transfer list", st1).
Proof.
  do 2 eexists.
  match goal with |- ?A /\ _ => assert (H : A) by (vm_compute; reflexivity) end.
  split; [exact H|].
  eapply X11_resubmission_rejected; [discriminate|exact H|vm_compute; reflexivity].
Defined.

(** X12.  Every store that transfer requests build from an absent file
    holds no two records [==] on the six fields. *)
Theorem X12_reachable_no_duplicates st l :
  reachable st -> st = Records l -> unique_tuples l.
Proof.
  intros R ->; exact (TransferFacts.reachable_unique _ R).
Qed.

Lemma X12_reachable_no_duplicates_witness :
  let st1 := snd (new_transfer_request "ES9121000418450200051332" "ORDINARY"
      "ES9121000418450200051332" "Pago de alquiler" "15/11/2026" (PFin 15050 (-2))
      "transfers.json" (PFin 17604000005 (-1)) (2026, 10, 14) NoFile) in
  let st2 := snd (new_transfer_request "ES9121000418450200051332" "ORDINARY"
      "ES9121000418450200051332" "Pago de alquiler" "15/11/2026" (PFin 20000 (-2))
      "transfers.json" (PFin 17604000015 (-1)) (2026, 10, 14) st1) in
  let l := match st2 with Records l => l | _ => [] end in
  length l = 2%nat /\ unique_tuples l.
Proof.
  intros st1 st2 l.
  assert (R : reachable st2).
  { eapply reach_step; [|apply surjective_pairing].
    eapply reach_step; [exact reach_init|apply surjective_pairing]. }
  split; [unfold l, st2, st1; vm_compute; reflexivity|].
  apply (X12_reachable_no_duplicates st2 l R).
  unfold l, st2, st1; vm_compute; reflexivity.
Defined.



(** X14.  The checks the G8X [AccountManager.transfer_request] runs before
    it builds its request give the same outcome as the validators of the src
    [TransferRequest], for every transfer type other than [IMMEDIATE] and
    [INMEDIATE]. *)
Theorem X14_g8x_checks_agree today f t c ty d a p ts :
  ty <> "IMMEDIATE" -> ty <> "INMEDIATE" ->
  ManagerG8X.transfer_request_checks today f t c ty d a
  = validations today (mkTR p f t ty c d a ts).
Proof.
  intros N1 N2.
  assert (E : ManagerG8X.transfer_type_format ty = Transfer.transfer_type_format ty).
  { unfold ManagerG8X.transfer_type_format, Transfer.transfer_type_format.
    destruct (String.eqb_spec ty "IMMEDIATE"), (String.eqb_spec ty "INMEDIATE");
      try contradiction; rewrite !orb_false_r; reflexivity. }
  unfold ManagerG8X.transfer_request_checks, validations, validate_transfer_type.
  cbn [from_iban to_iban concept transfer_type transfer_date transfer_amount].
  rewrite E; unfold ManagerG8X.validate_iban, Transfer.validate_iban.
  destruct (Iban.validate_iban f); [|reflexivity]; cbn [bind].
  destruct (Iban.validate_iban t); [|reflexivity]; cbn [bind].
  destruct (validate_concept c); [|reflexivity]; cbn [bind].
  destruct (negb _); reflexivity.
Qed.



Lemma X14_g8x_checks_agree_witness :
  ManagerG8X.transfer_request_checks (2026, 10, 14) "ES9121000418450200051332"
    "ES9121000418450200051332" "Pago de alquiler" "ORDINARY" "15/11/2026" (PFin 15050 (-2))
  = validations (2026, 10, 14) (mkTR "transfers.json" "ES9121000418450200051332"
      "ES9121000418450200051332" "ORDINARY" "Pago de alquiler" "15/11/2026"
      (PFin 15050 (-2)) (PFin 17604000005 (-1))).
Proof.
  apply X14_g8x_checks_agree; discriminate.
Defined.



(** X17.  What [calculate_balance] does after its IBAN check (the same text
    in both versions) depends only on the log entries whose [IBAN] equals
    the IBAN, taken in log order: dropping the other entries, whatever their
    amounts, changes neither the result nor the deposits and balances
    stores.  A log with no such entry raises "IBAN not found" and writes
    nothing. *)
Theorem X17_balance_other_entries iban ts s t_l :
  read_transactions_file (transactions s) = Ok t_l ->
  (let s_f := mkState (deposits s)
                (Records (filter (fun t => String.eqb (tx_iban t) iban) t_l)) (balances s) in
   let '(r, s') := balance_after_validation iban ts s_f in
   balance_after_validation iban ts s = (r, mkState (deposits s') (transactions s) (balances s')))
  /\ (forallb (fun t => negb (String.eqb (tx_iban t) iban)) t_l = true ->
      balance_after_validation iban ts s = (raise "IBAN not found", s)).
Proof.
  intro R; destruct s as [ds tr bs]; cbn [transactions] in R.
  unfold balance_after_validation; cbn [transactions deposits balances read_transactions_file].
  rewrite R; split.
  - rewrite (BalanceFacts.sum_matching_filter iban t_l false (PFin 0 0)).
    destruct (sum_matching _ _ _ _) as [[[|] bal]|e]; try reflexivity.
    destruct (load_or_empty bs) as [bl|e]; [|reflexivity].
    destruct (dump bs _) as [[u|e] f]; reflexivity.
  - intro N; rewrite (BalanceFacts.sum_matching_none iban t_l false (PFin 0 0) N); reflexivity.
Qed.

Lemma X17_balance_other_entries_witness :
  let s := mkState NoFile (Records [mkTx "ES9121000418450200051332" "100.0";
                                    mkTx "ES0021000418450200051332" "abc";
                                    mkTx "ES9121000418450200051332" "-30.0"]) NoFile in
  read_transactions_file (transactions s)
    = Ok [mkTx "ES9121000418450200051332" "100.0"; mkTx "ES0021000418450200051332" "abc";
          mkTx "ES9121000418450200051332" "-30.0"]
  /\ balance_after_validation "ES9121000418450200051332" (PFin 17604000005 (-1)) s
     = (let '(r, s') := balance_after_validation "ES9121000418450200051332"
                          (PFin 17604000005 (-1))
                          (mkState NoFile (Records [mkTx "ES9121000418450200051332" "100.0";
                                      mkTx "ES9121000418450200051332" "-30.0"]) NoFile) in
        (r, mkState (deposits s') (transactions s) (balances s'))).
Proof.
  intro s; split; [reflexivity|].
  exact (proj1 (X17_balance_other_entries "ES9121000418450200051332" (PFin 17604000005 (-1)) s
    [mkTx "ES9121000418450200051332" "100.0"; mkTx "ES0021000418450200051332" "abc";
     mkTx "ES9121000418450200051332" "-30.0"] eq_refl)).
Defined.



(** X18.  The G8X [calculate_balance] raises "IBAN not found" for every
    valid IBAN on every readable log whose IBAN fields all start with [E]:
    it compares them with the numeric transform, which starts with a digit. *)
Theorem X18_g8x_balance_never_found iban ts s t_l :
  is_ok (Iban.validate_iban iban) = true ->
  read_transactions_file (transactions s) = Ok t_l ->
  Forall (fun t => first_is (fun c => Ascii.eqb c "E") (tx_iban t) = true) t_l ->
  ManagerG8X.calculate_balance iban ts s = (raise "IBAN not found", s).
Proof.
  intros V R F; unfold ManagerG8X.calculate_balance, ManagerG8X.validate_iban.
  destruct (Iban.validate_iban iban) as [n|e] eqn:E; [|discriminate V].
  apply ExtraFacts.validate_iban_ok_shape in E as (rest & _ & Hl & Hd & ->).
  assert (D : first_is is_digit (drop 2 rest ++ "142800") = true).
  { pose proof (StrFacts.all_chars_drop is_digit 2 rest Hd) as Hd2.
    pose proof (ExtraFacts.length_drop 2 rest) as Hl2; rewrite Hl in Hl2.
    destruct (drop 2 rest) as [|c r]; [discriminate Hl2|].
    cbn [all_chars] in Hd2; apply andb_prop in Hd2 as [Hc _]; exact Hc. }
  unfold balance_after_validation; rewrite R, BalanceFacts.sum_matching_spec.
  rewrite (BalanceFacts.matching_none _ _ (BalanceFacts.first_digit_not_E _ D) F); reflexivity.
Qed.

Lemma X18_g8x_balance_never_found_witness :
  ManagerG8X.calculate_balance "ES9121000418450200051332" (PFin 17604000005 (-1))
    (mkState NoFile (Records [mkTx "ES9121000418450200051332" "100.0";
                              mkTx "ES9121000418450200051332" "-30.0"]) NoFile)
  = (raise "IBAN not found",
     mkState NoFile (Records [mkTx "ES9121000418450200051332" "100.0";
                              mkTx "ES9121000418450200051332" "-30.0"]) NoFile).
Proof.
  apply X18_g8x_balance_never_found with
    (t_l := [mkTx "ES9121000418450200051332" "100.0"; mkTx "ES9121000418450200051332" "-30.0"]).
  - vm_compute; reflexivity.
  - reflexivity.
  - repeat constructor.
Defined.
